(** * medQueryBot: retrieval, reranking and caching pipeline

    A shallow embedding of the Python sources

      - [src/models.py]      the [Paper] dataclass,
      - [src/retriever.py]   [SemanticScholarRetriever]: [search_papers],
                             and [get_embedding], [_simple_embedding] and
                             [get_embeddings_batch] on the embedding cache,
      - [src/embeddings.py]  [EmbeddingReranker],
      - [src/cache.py]       [ResultCache],
      - [src/bot.py]         [EnhancedMedQueryBot.answer_question],
      - [src/synthesizer.py] [generate_search_queries] and
                             [detect_contradictions] of [ClaudeSynthesizer],

    followed by the properties of the pipeline.

    Modelling conventions.
      - Python [str] is [string], [len] is [String.length], [s[:n]] is
        [substring 0 n s]; Python [int] is [Z].  A character is one
        [ascii], read as a code point below 256.
      - Python [float] (and numpy's float64) is Rocq's primitive binary64
        [float]: [+], [*], [/], [sqrt], [<], [==] are the IEEE 754
        operations of the kernel, so NaN and the infinities behave as in
        the interpreter.
      - A directory of JSON files is a [gmap] from the file's stem (the
        cache key) to the document it holds; a Python [set] of strings is
        a [gset string].
      - Calls that leave the process (the search API, the embedding model,
        the language model, the hash function of [hashlib]) are Section
        variables; a call that may raise returns [option], with [None]
        standing for the exception that reaches the caller. *)

From Stdlib Require Import ZArith QArith Lqa Floats.
From stdpp Require Import gmap strings list sorting pretty.

Set Warnings "-inexact-float".

(* ===================================================================== *)
(** * [src/models.py] *)
(* ===================================================================== *)

Module Models.

(** The dataclass [Paper]; [tldr] and [embedding] default to [None],
    [relevance_score] to [0.0]. *)
Record Paper := mkPaper {
  title : string;
  abstract : string;
  year : Z;
  authors : list string;
  citation_count : Z;
  url : string;
  paper_id : string;
  tldr : option string;
  embedding : option (list float);
  relevance_score : float
}.

(** [paper.embedding = e]. *)
Definition set_embedding (e : list float) (p : Paper) : Paper :=
  mkPaper (title p) (abstract p) (year p) (authors p) (citation_count p)
          (url p) (paper_id p) (tldr p) (Some e) (relevance_score p).

(** [paper.relevance_score = s]. *)
Definition set_relevance_score (s : float) (p : Paper) : Paper :=
  mkPaper (title p) (abstract p) (year p) (authors p) (citation_count p)
          (url p) (paper_id p) (tldr p) (embedding p) s.

(** Truth value of a Python [str]: the empty string is falsy. *)
Definition truthy (s : string) : bool :=
  match s with EmptyString => false | _ => true end.

End Models.
Import Models.

(* ===================================================================== *)
(** * [src/retriever.py] *)
(* ===================================================================== *)

Module Retriever.

(** One element of the [data] array of the search response, as the
    code reads it with [item.get]: [None] is an absent key. *)
Record Item := mkItem {
  item_title : option string;
  item_abstract : option string;
  item_year : option Z;
  item_authors : option (list (option string));
  item_citationCount : option Z;
  item_url : option string;
  item_tldr : option (option string);
  item_paperId : option string
}.

(** What [requests.get] does: it raises a [RequestException], or it
    returns a response with a status code and a JSON body whose [data]
    key may be absent. *)
Inductive HttpOutcome :=
| RequestException
| Response (status_code : Z) (data : option (list Item)).

(** [item.get("abstract") and len(item.get("abstract", "")) > 100] *)
Definition has_abstract (item : Item) : bool :=
  match item_abstract item with
  | Some a => truthy a && (100 <? String.length a)%nat
  | None => false
  end.

(** The [Paper(...)] constructor call of lines 58-67. *)
Definition paper_of_item (item : Item) : Paper :=
  {| title := default "" (item_title item);
     abstract := default "" (item_abstract item);
     year := default 0%Z (item_year item);
     authors := default "" <$> default [] (item_authors item);
     citation_count := default 0%Z (item_citationCount item);
     url := default "" (item_url item);
     tldr := match item_tldr item with Some t => t | None => None end;
     paper_id := default "" (item_paperId item);
     embedding := None;
     relevance_score := 0%float |}.

Section SearchPapers.
(** The search endpoint: query, limit and year filter to outcome. *)
Variable s2_get : string → Z → string → HttpOutcome.

Definition search_papers (query : string) (limit : Z) (year_filter : string)
  : list Paper :=
  match s2_get query limit year_filter with
  | RequestException => []
  | Response status_code data =>
      if negb (status_code =? 200)%Z then []
      else paper_of_item <$> filter (λ item, has_abstract item = true)
                                    (default [] data)
  end.
End SearchPapers.

End Retriever.
Import Retriever.

(* ===================================================================== *)
(** * [src/embeddings.py] *)
(* ===================================================================== *)

Module Embeddings.

(** [float(n)] for a Python [int]: the nearest binary64 value. *)
Definition float_of_int (n : Z) : float :=
  SF2Prim (binary_normalize prec emax n 0 false).

(** [np.isnan(v).any()] *)
Definition any_isnan (v : list float) : bool := existsb is_nan v.

(** [np.dot(v1, v2)] on two vectors of equal length, accumulated from
    the left (numpy leaves the order of the additions to the BLAS). *)
Definition dot (v1 v2 : list float) : float :=
  foldl (λ acc ab, acc + ab.1 * ab.2)%float 0%float (zip v1 v2).

(** [np.linalg.norm(v)] of a vector: [sqrt(v.dot(v))]. *)
Definition norm (v : list float) : float := sqrt (dot v v).

(** [EmbeddingReranker._cosine_similarity]; [None] is the [ValueError]
    of [np.dot] on vectors of different lengths. *)
Definition _cosine_similarity (vec1 vec2 : list float) : option float :=
  if any_isnan vec1 || any_isnan vec2 then Some 0%float
  else if negb (length vec1 =? length vec2)%nat then None
  else
    let dot_product := dot vec1 vec2 in
    let norm_product := (norm vec1 * norm vec2)%float in
    if (norm_product =? 0)%float then Some 0%float
    else Some (dot_product / norm_product)%float.

(** Python's [min(a, b)]: [b] when [b < a], else [a]. *)
Definition py_min (a b : float) : float := if (b <? a)%float then b else a.

(** Line 52: [min(paper.citation_count / 100, 1.0)]. *)
Definition citation_score (citation_count : Z) : float :=
  py_min (float_of_int citation_count / 100)%float 1.0%float.

(** Line 53: [(paper.year - 2020) / 10 if paper.year >= 2020 else 0]. *)
Definition recency_score (year : Z) : float :=
  if (2020 <=? year)%Z then (float_of_int (year - 2020) / 10)%float else 0%float.

(** Lines 54-56: the value assigned to [paper.relevance_score]. *)
Definition blend (similarity : float) (citation_count year : Z) : float :=
  (0.6 * similarity
   + 0.25 * citation_score citation_count
   + 0.15 * recency_score year)%float.





(** [papers.sort(key=lambda p: p.relevance_score, reverse=True)]:
    [list.sort] is stable and compares keys with [<]; with
    [reverse=True] equal keys keep their input order.  It is modelled
    by insertion from the right: a paper moves past exactly the papers
    whose key is strictly greater than its own. *)
Fixpoint insert_by_score (p : Paper) (l : list Paper) : list Paper :=
  match l with
  | [] => [p]
  | p' :: l' =>
      if (relevance_score p <? relevance_score p')%float
      then p' :: insert_by_score p l'
      else p :: l
  end.

Definition sort_by_score (l : list Paper) : list Paper :=
  foldr insert_by_score [] l.

(** [l[:k]] for a Python [int] [k]: a negative [k] counts from the end. *)
Definition slice_to {A} (k : Z) (l : list A) : list A :=
  if (k <? 0)%Z then take (Z.to_nat (Z.of_nat (length l) + k)) l
  else take (Z.to_nat k) l.

Section Rerank.
(** [self.retriever.get_embedding]: its in-memory cache only saves
    recomputation, so it is a function of the text. *)
Variable get_embedding : string → list float.

(** [f"{paper.title} {paper.abstract[:500]}"] *)
Definition paper_text (paper : Paper) : string :=
  title paper +:+ " " +:+ String.substring 0 500 (abstract paper).

(** The body of the scoring loop, lines 48-56, for one paper. *)
Definition score_paper (query_embedding : list float) (paper : Paper)
  : option Paper :=
  let embedding := get_embedding (paper_text paper) in
  similarity ← _cosine_similarity query_embedding embedding;
  Some (set_relevance_score
          (blend similarity (citation_count paper) (year paper))
          (set_embedding embedding paper)).

Definition rerank_papers (query : string) (papers : list Paper) (top_k : Z)
  : option (list Paper) :=
  match papers with
  | [] => Some []
  | _ =>
      let query_embedding := get_embedding query in
      scored ← mapM (score_paper query_embedding) papers;
      Some (slice_to top_k (sort_by_score scored))
  end.
End Rerank.

End Embeddings.
Import Embeddings.

(* ===================================================================== *)
(** * [src/cache.py] *)
(* ===================================================================== *)

Module Cache.

(** One element of the [papers] array of a cached document: the nine
    keys that [cache_papers] writes. *)
Record PaperDict := mkPaperDict {
  d_title : string;
  d_abstract : string;
  d_year : Z;
  d_authors : list string;
  d_citation_count : Z;
  d_url : string;
  d_tldr : option string;
  d_relevance_score : float;
  d_paper_id : string
}.

(** The document of a file of [papers/]. *)
Record PapersFile := mkPapersFile {
  pf_query : string;
  pf_papers : list PaperDict
}.

(** The document of a file of [answers/]. *)
Record AnswerFile := mkAnswerFile {
  af_question : string;
  af_paper_ids : list string;
  af_answer : string
}.

(** The cache directory: its two sub-directories, each a map from
    [cache_key] (the file is [cache_key.json]) to the document.  The
    files are those this class wrote: every one of them parses, and
    [json.load] returns the document [json.dump] was given. *)
Record ResultCache := mkResultCache {
  papers_dir : gmap string PapersFile;
  answers_dir : gmap string AnswerFile
}.

(** [ResultCache()] on a directory that does not exist yet. *)
Definition new_cache : ResultCache := mkResultCache ∅ ∅.

(** The dictionary built for one paper, lines 54-64. *)
Definition paper_dict_of (paper : Paper) : PaperDict :=
  {| d_title := title paper;
     d_abstract := abstract paper;
     d_year := year paper;
     d_authors := authors paper;
     d_citation_count := citation_count paper;
     d_url := url paper;
     d_tldr := tldr paper;
     d_relevance_score := relevance_score paper;
     d_paper_id := paper_id paper |}.

(** [Paper] applied to the unpacked [paper_dict]: [embedding], which
    the dictionary does not carry, keeps the dataclass default. *)
Definition paper_of_dict (d : PaperDict) : Paper :=
  {| title := d_title d;
     abstract := d_abstract d;
     year := d_year d;
     authors := d_authors d;
     citation_count := d_citation_count d;
     url := d_url d;
     paper_id := d_paper_id d;
     tldr := d_tldr d;
     embedding := None;
     relevance_score := d_relevance_score d |}.

(** Python's [sorted] on a list of [str]: lexicographic order. *)
Definition sorted (l : list string) : list string := merge_sort String.le l.

Section WithHash.
(** [hashlib.md5(text.encode()).hexdigest()] *)
Variable md5_hexdigest : string → string.

Definition _get_cache_key (text : string) : string := md5_hexdigest text.

Definition get_cached_papers (self : ResultCache) (query : string)
  : option (list PaperDict) :=
  let cache_key := _get_cache_key query in
  match papers_dir self !! cache_key with
  | Some data => Some (pf_papers data)
  | None => None
  end.

Definition cache_papers (self : ResultCache) (query : string)
    (papers : list Paper) : ResultCache :=
  let cache_key := _get_cache_key query in
  let papers_data := paper_dict_of <$> papers in
  {| papers_dir := <[cache_key := mkPapersFile query papers_data]> (papers_dir self);
     answers_dir := answers_dir self |}.

(** [f"{question}|{'|'.join(sorted(paper_ids))}"] *)
Definition answer_cache_input (question : string) (paper_ids : list string)
  : string :=
  question +:+ "|" +:+ String.concat "|" (sorted paper_ids).

Definition get_cached_answer (self : ResultCache) (question : string)
    (paper_ids : list string) : option string :=
  let cache_key := _get_cache_key (answer_cache_input question paper_ids) in
  match answers_dir self !! cache_key with
  | Some data => Some (af_answer data)
  | None => None
  end.

Definition cache_answer (self : ResultCache) (question : string)
    (paper_ids : list string) (answer : string) : ResultCache :=
  let cache_key := _get_cache_key (answer_cache_input question paper_ids) in
  {| papers_dir := papers_dir self;
     answers_dir :=
       <[cache_key := mkAnswerFile question paper_ids answer]> (answers_dir self) |}.
End WithHash.

(** [shutil.rmtree] followed by [__init__]. *)
Definition clear_cache (self : ResultCache) : ResultCache := new_cache.

End Cache.
Import Cache.

(* ===================================================================== *)
(** * [src/bot.py] *)
(* ===================================================================== *)

Module Bot.

(** The values stored in the dictionary that [answer_question]
    returns; [VAnalysis a] is the dictionary [{"analysis": a}]. *)
Inductive Value :=
| VNone
| VBool (b : bool)
| VInt (n : Z)
| VStr (s : string)
| VQueries (l : list string)
| VPapers (l : list Paper)
| VAnalysis (a : string).

Definition value_of_contradictions (c : option string) : Value :=
  match c with Some a => VAnalysis a | None => VNone end.

(** [len(l)] as a Python [int]. *)
Definition len {A} (l : list A) : Z := Z.of_nat (length l).

(** The accumulators of the retrieval loop. *)
Record Merged := mkMerged {
  all_papers : list Paper;
  seen_paper_ids : gset string
}.

(** Lines 45-49: one step of the loop over a cached entry. *)
Definition merge_cached_paper (st : Merged) (paper_dict : PaperDict) : Merged :=
  if bool_decide (d_paper_id paper_dict ∉ seen_paper_ids st) then
    {| all_papers := all_papers st ++ [paper_of_dict paper_dict];
       seen_paper_ids := seen_paper_ids st ∪ {[d_paper_id paper_dict]} |}
  else st.

(** Lines 57-65: one step of the deduplication of fetched papers; the
    second component is [new_papers]. *)
Definition merge_fresh_paper (acc : Merged * list Paper) (paper : Paper)
  : Merged * list Paper :=
  let '(st, new_papers) := acc in
  if truthy (paper_id paper)
     && bool_decide (paper_id paper ∉ seen_paper_ids st) then
    ({| all_papers := all_papers st ++ [paper];
        seen_paper_ids := seen_paper_ids st ∪ {[paper_id paper]} |},
     new_papers ++ [paper])
  else if negb (truthy (paper_id paper))
          && bool_decide (title paper ∉ title <$> all_papers st) then
    ({| all_papers := all_papers st ++ [paper];
        seen_paper_ids := seen_paper_ids st |},
     new_papers ++ [paper])
  else acc.

(** The dictionary literals of the three [return] statements: lines
    76-84 (no paper found), and lines 98-107 and 125-134, which differ
    in [contradictions], [answer] and [from_cache] only. *)
Definition no_papers_answer : string :=
  "No papers found. Try rephrasing your question or broadening the scope.".

Definition empty_result (user_question : string) (queries : list string)
  : gmap string Value :=
  list_to_map
    [("question", VStr user_question);
     ("queries_used", VQueries queries);
     ("papers_analyzed", VInt 0);
     ("papers_used", VInt 0);
     ("papers", VPapers []);
     ("contradictions", VNone);
     ("answer", VStr no_papers_answer)].

Definition full_result (user_question : string) (queries : list string)
    (all_papers top_papers : list Paper) (contradictions : option string)
    (answer : string) (from_cache : bool) : gmap string Value :=
  list_to_map
    [("question", VStr user_question);
     ("queries_used", VQueries queries);
     ("papers_analyzed", VInt (len all_papers));
     ("papers_used", VInt (len top_papers));
     ("papers", VPapers top_papers);
     ("contradictions", value_of_contradictions contradictions);
     ("answer", VStr answer);
     ("from_cache", VBool from_cache)].

Section AnswerQuestion.
Variable md5_hexdigest : string → string.
Variable s2_get : string → Z → string → HttpOutcome.
Variable get_embedding : string → list float.
(** The three methods of [ClaudeSynthesizer]; each calls the language
    model and raises when that call fails. *)
Variable generate_search_queries : string → option (list string).
Variable detect_contradictions : list Paper → option string.
Variable synthesize_findings :
  string → list Paper → option string → option string.

(** The body of [for query in queries], lines 39-71, on the
    accumulators and [self.cache]; the pause of line 71 is not
    modelled. *)
Definition retrieve_query (use_cached : bool) (papers_per_query : Z)
    (acc : Merged * option ResultCache) (query : string)
  : Merged * option ResultCache :=
  let '(st, cache) := acc in
  let cached_papers :=
    match use_cached, cache with
    | true, Some c => get_cached_papers md5_hexdigest c query
    | _, _ => None
    end in
  match cached_papers with
  | Some ((_ :: _) as cached_papers) =>
      (foldl merge_cached_paper st cached_papers, cache)
  | _ =>
      let papers := search_papers s2_get query papers_per_query "2020-" in
      let '(st', new_papers) := foldl merge_fresh_paper (st, []) papers in
      let cache' :=
        match cache, new_papers with
        | Some c, _ :: _ => Some (cache_papers md5_hexdigest c query new_papers)
        | _, _ => cache
        end in
      (st', cache')
  end.

Definition retrieve (use_cached : bool) (papers_per_query : Z)
    (cache : option ResultCache) (queries : list string)
  : Merged * option ResultCache :=
  foldl (retrieve_query use_cached papers_per_query)
        (mkMerged [] ∅, cache) queries.

(** [EnhancedMedQueryBot.answer_question] on [self.cache]: the cache
    it leaves behind, and the dictionary it returns ([None] when an
    exception leaves the method). *)
Definition answer_question (cache : option ResultCache)
    (user_question : string) (papers_per_query : Z)
    (detect_contradictions_flag : bool) (top_k_papers : Z)
    (use_cached : bool)
  : option ResultCache * option (gmap string Value) :=
  match generate_search_queries user_question with
  | None => (cache, None)
  | Some queries =>
    let '(st, cache) := retrieve use_cached papers_per_query cache queries in
    match all_papers st with
    | [] => (cache, Some (empty_result user_question queries))
    | _ =>
      match rerank_papers get_embedding user_question (all_papers st)
                          top_k_papers with
      | None => (cache, None)
      | Some top_papers =>
        let paper_ids :=
          filter (λ i, truthy i = true) (paper_id <$> top_papers) in
        let cached_answer :=
          match use_cached, cache, paper_ids with
          | true, Some c, _ :: _ =>
              get_cached_answer md5_hexdigest c user_question paper_ids
          | _, _, _ => None
          end in
        match cached_answer with
        | Some ((String _ _) as cached_answer) =>
            (cache,
             Some (full_result user_question queries (all_papers st)
                               top_papers None cached_answer true))
        | _ =>
          let contradictions :=
            if detect_contradictions_flag && (2 <=? len top_papers)%Z
            then Some (detect_contradictions top_papers)
            else None in
          match contradictions with
          | Some None => (cache, None)
          | _ =>
            let contradictions := mjoin contradictions in
            match synthesize_findings user_question top_papers
                                      contradictions with
            | None => (cache, None)
            | Some answer =>
              let cache' :=
                match cache, paper_ids with
                | Some c, _ :: _ =>
                    Some (cache_answer md5_hexdigest c user_question
                                       paper_ids answer)
                | _, _ => cache
                end in
              (cache',
               Some (full_result user_question queries (all_papers st)
                                 top_papers contradictions answer false))
            end
          end
        end
      end
    end
  end.
End AnswerQuestion.

End Bot.
Import Bot.

(* ===================================================================== *)
(** * [src/synthesizer.py] *)
(* ===================================================================== *)

Module Synthesizer.
Import Stdlib.Strings.Ascii.

(** [c.isspace()] for a character below 256: the ASCII controls 9-13
    and 28-31, the space, NEL and the no-break space. *)
Definition isspace (c : ascii) : bool :=
  let n := nat_of_ascii c in
  ((9 <=? n) && (n <=? 13) || (28 <=? n) && (n <=? 32)
   || (n =? 133) || (n =? 160))%nat.

(** [s.lstrip()], [s.strip()] on the characters of [s]. *)
Fixpoint lstrip_chars (l : list ascii) : list ascii :=
  match l with
  | c :: l' => if isspace c then lstrip_chars l' else l
  | [] => []
  end.

Definition strip_chars (l : list ascii) : list ascii :=
  reverse (lstrip_chars (reverse (lstrip_chars l))).

Definition strip (s : string) : string :=
  String.string_of_list_ascii (strip_chars (String.list_ascii_of_string s)).

(** [s.split(sep)] for a one-character separator: never empty. *)
Fixpoint split_chars (sep : ascii) (l : list ascii) : list (list ascii) :=
  match l with
  | [] => [[]]
  | c :: l' =>
      if decide (c = sep) then [] :: split_chars sep l'
      else match split_chars sep l' with
           | w :: ws => (c :: w) :: ws
           | [] => [[c]]
           end
  end.

Definition newline : ascii := ascii_of_nat 10.

(** [s.split('\n')] *)
Definition split_lines (s : string) : list string :=
  String.string_of_list_ascii
    <$> split_chars newline (String.list_ascii_of_string s).

(** [chr(10)] and the double quote as strings. *)
Definition nl : string := String newline EmptyString.
Definition dquote : string := String (ascii_of_nat 34) EmptyString.

(** The prompt of lines 12-17. *)
Definition query_prompt (user_question : string) : string :=
  "Given this medical/scientific question, generate 3 different search queries 
that would help find relevant academic papers. Make them specific and use scientific terminology.

Question: " +:+ user_question +:+ "

Return only the queries, one per line.".

(** Line 36, with [i] counted from 1. *)
Definition paper_summary (i : nat) (paper : Paper) : string :=
  "Paper " +:+ pretty i +:+ " (" +:+ pretty (year paper) +:+ ", "
  +:+ pretty (citation_count paper) +:+ " citations):" +:+ nl
  +:+ String.substring 0 600 (abstract paper).

(** The prompt of lines 39-49. *)
Definition contradiction_prompt (paper_summaries : list string) : string :=
  "Analyze these research papers and identify any contradictions or conflicting findings.

" +:+ String.concat nl paper_summaries +:+ "

List any clear contradictions you find. For each contradiction:
1. State which papers conflict (by number)
2. Describe the nature of the disagreement
3. Suggest possible reasons (methodology, sample size, etc.)

If there are no significant contradictions, say " +:+ dquote
  +:+ "No major contradictions detected." +:+ dquote +:+ "
".

Definition not_enough_papers : string :=
  "Not enough papers to detect contradictions.".

Section WithClaude.
(** [self.claude_client.messages.create(...).content[0].text] for the
    fixed model name, as a function of [max_tokens] and the prompt;
    [None] when the call raises. *)
Variable messages_create : Z → string → option string.

Definition generate_search_queries (user_question : string)
  : option (list string) :=
  text ← messages_create 500 (query_prompt user_question);
  let queries :=
    strip <$> filter (λ q, truthy (strip q) = true) (split_lines (strip text)) in
  Some (take 3 queries).

(** The returned dictionary [{"analysis": a}] is its value [a]. *)
Definition detect_contradictions (papers : list Paper) : option string :=
  if (length papers <? 2)%nat then Some not_enough_papers
  else
    let paper_summaries :=
      imap (λ i paper, paper_summary (S i) paper) (take 6 papers) in
    messages_create 1500 (contradiction_prompt paper_summaries).
End WithClaude.

End Synthesizer.

(* ===================================================================== *)
(** * [src/retriever.py]: the embeddings *)
(* ===================================================================== *)

Module EmbeddingProvider.
Import Stdlib.Strings.Ascii.

(** [c.lower()] for a character below 256. *)
Definition lower_char (c : ascii) : ascii :=
  let n := nat_of_ascii c in
  if ((65 <=? n) && (n <=? 90)
      || (192 <=? n) && (n <=? 222) && negb (n =? 215))%nat
  then ascii_of_nat (n + 32) else c.

(** [s.split()]: the maximal runs of characters that are not spaces;
    [cur] holds the current run, last character first. *)
Fixpoint split_chars_ws (cur : list ascii) (l : list ascii)
  : list (list ascii) :=
  let flush := match cur with [] => [] | _ => [reverse cur] end in
  match l with
  | [] => flush
  | c :: l' =>
      if Synthesizer.isspace c then flush ++ split_chars_ws [] l'
      else split_chars_ws (c :: cur) l'
  end.

(** [text.lower().split()] *)
Definition lower_words (text : string) : list string :=
  String.string_of_list_ascii
    <$> split_chars_ws [] (lower_char <$> String.list_ascii_of_string text).

(** [self.embedding_model]: the two uses of its [encode], on one text
    and on a list; [None] when the call raises. *)
Record Model := mkModel {
  encode : string → option (list float);
  encode_batch : list string → option (list (list float))
}.

Section WithModel.
Variable md5_hexdigest : string → string.
(** [hash(word)], salted per process. *)
Variable py_hash : string → Z.
(** [None] when the model could not be loaded. *)
Variable embedding_model : option Model.

(** [hash(word) % 100 / 100.0] *)
Definition word_value (word : string) : float :=
  (float_of_int (py_hash word `mod` 100) / 100)%float.

Definition _simple_embedding (text : string) : list float :=
  let words := lower_words text in
  let vec :=
    foldl (λ vec iw, <[iw.1 := word_value iw.2]> vec)
          (replicate 384 0%float)
          (zip (seq 0 (length (take 384 words))) (take 384 words)) in
  let norm := norm vec in
  if (0 <? norm)%float then (λ x, x / norm)%float <$> vec else vec.

(** [get_embedding] on [self._embedding_cache]: the cache it leaves and
    the vector it returns. *)
Definition get_embedding (cache : gmap string (list float)) (text : string)
  : gmap string (list float) * list float :=
  let cache_key := md5_hexdigest text in
  match cache !! cache_key with
  | Some embedding => (cache, embedding)
  | None =>
      let truncated_text := String.substring 0 1000 text in
      match embedding_model with
      | Some model =>
          match encode model truncated_text with
          | Some embedding_list =>
              (<[cache_key := embedding_list]> cache, embedding_list)
          | None => (cache, _simple_embedding truncated_text)
          end
      | None => (cache, _simple_embedding truncated_text)
      end
  end.

(** [for text in texts: embeddings.append(self.get_embedding(text))] *)
Definition get_embeddings_each (cache : gmap string (list float))
    (texts : list string) : gmap string (list float) * list (list float) :=
  foldl (λ acc text,
           let '(cache, embedding) := get_embedding acc.1 text in
           (cache, acc.2 ++ [embedding]))
        (cache, []) texts.

Definition get_embeddings_batch (cache : gmap string (list float))
    (texts : list string) : gmap string (list float) * list (list float) :=
  match embedding_model with
  | Some model =>
      let truncated_texts := String.substring 0 1000 <$> texts in
      match encode_batch model truncated_texts with
      | Some batch_embeddings => (cache, batch_embeddings)
      | None => get_embeddings_each cache texts
      end
  | None => get_embeddings_each cache texts
  end.
End WithModel.

End EmbeddingProvider.

(* ===================================================================== *)
(** * Vocabulary of the statements *)
(* ===================================================================== *)

(** [p] may stand before [q] in a list in descending order of score. *)
Definition score_ge (p q : Paper) : Prop :=
  (relevance_score q <=? relevance_score p)%float = true.

Definition has_score (s : float) (p : Paper) : Prop :=
  (relevance_score p =? s)%float = true.

Definition score_is_number (p : Paper) : Prop :=
  is_nan (relevance_score p) = false.

Global Instance has_score_dec s p : Decision (has_score s p).
Proof. unfold has_score. apply _. Defined.

Global Instance score_is_number_dec p : Decision (score_is_number p).
Proof. unfold score_is_number. apply _. Defined.

(** The paper as [cache_papers] followed by the reconstruction of
    [answer_question] returns it: every attribute but [embedding]. *)
Definition without_embedding (p : Paper) : Paper :=
  mkPaper (title p) (abstract p) (year p) (authors p) (citation_count p)
          (url p) (paper_id p) (tldr p) None (relevance_score p).

(** The non-empty [paper_id]s of the merged papers, in order. *)
Definition merged_ids (st : Merged) : list string :=
  filter (λ i, truthy i = true) (paper_id <$> all_papers st).

(** No non-empty id occurs twice among the merged papers, and each one
    is recorded in [seen_paper_ids]. *)
Definition ids_consistent (st : Merged) : Prop :=
  NoDup (merged_ids st) ∧ ∀ i, i ∈ merged_ids st → i ∈ seen_paper_ids st.


(** Two papers that [detect_contradictions] cannot tell apart: it
    reads the year, the citation count and 600 characters of abstract. *)
Definition same_summary (p p' : Paper) : Prop :=
  year p = year p' ∧ citation_count p = citation_count p'
  ∧ String.substring 0 600 (abstract p) = String.substring 0 600 (abstract p').

(** A query as [generate_search_queries] returns it: not empty, equal
    to its own [strip()], on one line. *)
Definition clean_query (q : string) : Prop :=
  q ≠ "" ∧ Synthesizer.strip q = q
  ∧ Synthesizer.newline ∉ String.list_ascii_of_string q.

(** The first character, if any, is not a space. *)
Definition head_clean (l : list Ascii.ascii) : Prop :=
  ∀ c, head l = Some c → Synthesizer.isspace c = false.

(** The titles of the merged papers that carry no [paper_id]. *)
Definition idless_titles (st : Merged) : list string :=
  title <$> filter (λ p, truthy (paper_id p) = false) (all_papers st).

(** The retrieval loop does not read the cache: [use_cached] is false,
    or there is no cache. *)
Definition cache_not_read (use_cached : bool) (cache : option ResultCache)
  : Prop :=
  use_cached = false ∨ cache = None.

(** The keys of the dictionary of lines 125-134. *)
Definition result_keys : list string :=
  ["question"; "queries_used"; "papers_analyzed"; "papers_used"; "papers";
   "contradictions"; "answer"; "from_cache"].

(* ===================================================================== *)
(** * Concrete collaborators and inputs *)
(* ===================================================================== *)

(** A hash for the runs below: the identity keeps the keys readable. *)
Definition ex_hash (text : string) : string := text.

(** An abstract of 129 characters, and one of 50. *)
Definition ex_abstract : string :=
  "Sodium-glucose cotransporter 2 inhibitors reduced hospitalisation for heart failure in adults with type 2 diabetes across trials.".

Definition ex_short_abstract : string :=
  "SGLT2 inhibitors lowered heart failure admissions.".

Definition ex_item (paperId : option string) (ttl abs : string) (yr cites : Z)
  : Item :=
  {| item_title := Some ttl;
     item_abstract := Some abs;
     item_year := Some yr;
     item_authors := Some [Some "A. Author"];
     item_citationCount := Some cites;
     item_url := Some "https://example.org/paper";
     item_tldr := None;
     item_paperId := paperId |}.

Definition ex_paper (paperId : option string) (ttl : string) (yr cites : Z)
  : Paper :=
  paper_of_item (ex_item paperId ttl ex_abstract yr cites).

(** An embedding model that maps every text to the same unit vector. *)
Definition ex_embedding (text : string) : list float := [1%float; 0%float].

(** An embedding model whose vector for a paper holds an infinity. *)
Definition ex_embedding_inf (text : string) : list float :=
  if String.eqb text "q" then [1%float] else [infinity].

(** Three papers: the first two tie, the third scores highest. *)
Definition ex_ranked_input : list Paper :=
  [ex_paper (Some "a") "First" 2021 10;
   ex_paper (Some "b") "Second" 2021 10;
   ex_paper (Some "c") "Third" 2024 200].

(** The three papers after the scoring loop. *)
Definition ex_scored : list Paper :=
  default [] (mapM (score_paper ex_embedding (ex_embedding "q")) ex_ranked_input).

(** A search API answering one query with a long and a short abstract, a
    record without abstract and one of exactly 100 characters. *)
Definition ex_s2_filter (query : string) (limit : Z) (year_filter : string)
  : HttpOutcome :=
  Response 200 (Some
    [ex_item (Some "short") "Short" ex_short_abstract 2022 5;
     ex_item (Some "long") "Long" ex_abstract 2022 5;
     mkItem (Some "None") None (Some 2022%Z) None None None None (Some "none");
     ex_item (Some "hundred") "Hundred"
             (String.substring 0 100 ex_abstract) 2022 5]).

(** A search API whose second query returns a paper the first query
    returned too. *)
Definition ex_s2_overlap (query : string) (limit : Z) (year_filter : string)
  : HttpOutcome :=
  if String.eqb query "q1" then
    Response 200 (Some [ex_item (Some "a") "First" ex_abstract 2021 10])
  else
    Response 200 (Some [ex_item (Some "a") "First" ex_abstract 2021 10;
                        ex_item (Some "b") "Second" ex_abstract 2022 20]).

(** A search API returning two papers that carry no [paperId]. *)
Definition ex_s2_no_ids (query : string) (limit : Z) (year_filter : string)
  : HttpOutcome :=
  Response 200 (Some [ex_item None "First" ex_abstract 2021 10;
                      ex_item None "Second" ex_abstract 2022 20]).

(** A search API that is down. *)
Definition ex_s2_down (query : string) (limit : Z) (year_filter : string)
  : HttpOutcome := RequestException.

(** Two runs of the retrieval loop for the one query ["q"]: the first on
    an empty cache, the second on the cache the first one left. *)
Definition ex_first_run : Merged * option ResultCache :=
  retrieve ex_hash ex_s2_no_ids true 15 (Some new_cache) ["q"].

Definition ex_second_run : Merged * option ResultCache :=
  retrieve ex_hash ex_s2_no_ids true 15 ex_first_run.2 ["q"].

(** The papers of the first run, reranked for the question ["Q"]. *)
Definition ex_top_no_ids : list Paper :=
  default [] (rerank_papers ex_embedding "Q" (all_papers ex_first_run.1) 8).

(** The retrieval loop for two overlapping queries on an empty cache. *)
Definition ex_overlap_run : Merged * option ResultCache :=
  retrieve ex_hash ex_s2_overlap true 15 (Some new_cache) ["q1"; "q2"].

(** An embedding model that maps a text to its length, and whose batch
    call raises. *)
Definition ex_length_vector (text : string) : list float :=
  [float_of_int (Z.of_nat (String.length text))].

Definition ex_model : EmbeddingProvider.Model :=
  EmbeddingProvider.mkModel (λ text, Some (ex_length_vector text)) (λ texts, None).

(** A hash of words. *)
Definition ex_py_hash (word : string) : Z :=
  (Z.of_nat (String.length word) * 7 - 100)%Z.

(** A language model with fixed replies. *)
Definition ex_one_query (question : string) : option (list string) :=
  Some ["q"].

Definition ex_two_queries (question : string) : option (list string) :=
  Some ["q1"; "q2"].

Definition ex_detect (papers : list Paper) : option string :=
  Some "No major contradictions detected.".

Definition ex_synthesize (question : string) (papers : list Paper)
    (contradictions : option string) : option string :=
  Some "Synthesized answer [1].".

(** A full run on an empty cache with two overlapping queries, and the
    retrieval of a second run on the cache the first one left. *)
Definition ex_answer_run : option ResultCache * option (gmap string Value) :=
  answer_question ex_hash ex_s2_overlap ex_embedding ex_two_queries ex_detect
    ex_synthesize (Some new_cache) "Q" 15 true 8 true.

Definition ex_overlap_top : list Paper :=
  default [] (rerank_papers ex_embedding "Q" (all_papers ex_overlap_run.1) 8).

Definition ex_rerun_retrieval : Merged * option ResultCache :=
  retrieve ex_hash ex_s2_overlap true 15 ex_answer_run.1 ["q1"; "q2"].

Definition ex_rerun_top : list Paper :=
  default [] (rerank_papers ex_embedding "Q" (all_papers ex_rerun_retrieval.1) 8).

(* ===================================================================== *)
(** * The order of binary64 values *)
(* ===================================================================== *)

(** The comparisons of the kernel are those of the IEEE 754
    specification [SFcompare]; away from NaN it is a total preorder. *)

Section FloatOrder.
Local Open Scope float_scope.

Ltac by_compare :=
  repeat match goal with
  | |- context [Z.compare ?a ?b] => destruct (Z.compare_spec a b)
  | |- context [Pos.compare_cont Eq ?a ?b] =>
      change (Pos.compare_cont Eq a b) with (Pos.compare a b);
      destruct (Pos.compare_spec a b)
  end; simpl; intros; subst; try (discriminate || reflexivity || lia).

Lemma SFcompare_refl (x : spec_float) :
  x ≠ S754_nan → SFcompare x x = Some Eq.
Proof.
  destruct x as [s|s| |s m e]; simpl; try done.
  - by destruct s.
  - intros _. rewrite Z.compare_refl.
    change (Pos.compare_cont Eq m m) with (Pos.compare m m).
    rewrite Pos.compare_refl. by destruct s.
Qed.

Lemma SFleb_trans (x y z : spec_float) :
  SFleb x y = true → SFleb y z = true → SFleb x z = true.
Proof.
  unfold SFleb.
  destruct x as [sx|sx| |sx mx ex], y as [sy|sy| |sy my ey],
           z as [sz|sz| |sz mz ez]; simpl;
    try destruct sx; try destruct sy; try destruct sz; simpl;
    try done; by_compare.
Qed.

Lemma SFltb_false_leb (x y : spec_float) :
  x ≠ S754_nan → y ≠ S754_nan → SFltb x y = false → SFleb y x = true.
Proof.
  unfold SFltb, SFleb.
  destruct x as [sx|sx| |sx mx ex], y as [sy|sy| |sy my ey]; simpl;
    try destruct sx; try destruct sy; simpl; try done; intros _ _;
    by_compare.
Qed.

Lemma SFltb_leb (x y : spec_float) : SFltb x y = true → SFleb x y = true.
Proof. unfold SFltb, SFleb. by destruct (SFcompare x y) as [[]|]. Qed.

Lemma SFeqb_ltb_neq (s x y : spec_float) :
  SFeqb x s = true → SFltb x y = true → SFeqb y s = false.
Proof.
  unfold SFeqb, SFltb.
  destruct x as [sx|sx| |sx mx ex], y as [sy|sy| |sy my ey],
           s as [ss|ss| |ss ms es]; simpl;
    try destruct sx; try destruct sy; try destruct ss; simpl;
    try done; by_compare.
Qed.

Lemma is_nan_Prim2SF (x : float) :
  is_nan x = false → Prim2SF x ≠ S754_nan.
Proof.
  unfold is_nan. rewrite FloatAxioms.eqb_spec. intros H E. rewrite E in H. done.
Qed.

Lemma float_leb_trans (x y z : float) :
  (x <=? y) = true → (y <=? z) = true → (x <=? z) = true.
Proof. rewrite !FloatAxioms.leb_spec. apply SFleb_trans. Qed.

Lemma float_ltb_false_leb (x y : float) :
  is_nan x = false → is_nan y = false → (x <? y) = false → (y <=? x) = true.
Proof.
  intros Hx Hy. rewrite FloatAxioms.ltb_spec, FloatAxioms.leb_spec.
  apply SFltb_false_leb; by apply is_nan_Prim2SF.
Qed.

Lemma float_ltb_leb (x y : float) : (x <? y) = true → (x <=? y) = true.
Proof. rewrite FloatAxioms.ltb_spec, FloatAxioms.leb_spec. apply SFltb_leb. Qed.

Lemma float_eqb_ltb_neq (s x y : float) :
  (x =? s) = true → (x <? y) = true → (y =? s) = false.
Proof. rewrite !FloatAxioms.eqb_spec, FloatAxioms.ltb_spec. apply SFeqb_ltb_neq. Qed.
End FloatOrder.

(* ===================================================================== *)
(** * Reranking *)
(* ===================================================================== *)

Section SortByScore.
Implicit Types (p q : Paper) (l : list Paper).

Lemma insert_by_score_perm p l : insert_by_score p l ≡ₚ p :: l.
Proof.
  induction l as [|q l IH]; simpl; [done|].
  destruct (_ <? _)%float; [|done].
  rewrite IH. apply Permutation_swap.
Qed.

Lemma sort_by_score_perm l : sort_by_score l ≡ₚ l.
Proof.
  induction l as [|p l IH]; simpl; [done|].
  by rewrite insert_by_score_perm, IH.
Qed.

Lemma sort_by_score_length l : length (sort_by_score l) = length l.
Proof. by rewrite sort_by_score_perm. Qed.

Lemma insert_by_score_sorted p l :
  score_is_number p → Forall score_is_number l →
  StronglySorted score_ge l → StronglySorted score_ge (insert_by_score p l).
Proof.
  intros Hp. induction l as [|q l IH]; intros Hl Hs; simpl.
  - repeat constructor.
  - apply Forall_cons in Hl as [Hq Hl].
    apply StronglySorted_inv in Hs as [Hs Hql].
    destruct (_ <? _)%float eqn:Hlt.
    + constructor; [by apply IH|].
      rewrite insert_by_score_perm. constructor; [|done].
      by apply float_ltb_leb.
    + assert (score_ge p q) as Hpq by by apply float_ltb_false_leb.
      constructor; [by constructor|].
      constructor; [done|].
      eapply Forall_impl; [exact Hql|].
      intros r Hr. unfold score_ge in *. by eapply float_leb_trans.
Qed.

Lemma sort_by_score_sorted l :
  Forall score_is_number l → StronglySorted score_ge (sort_by_score l).
Proof.
  induction l as [|p l IH]; intros Hl; simpl; [constructor|].
  apply Forall_cons in Hl as [Hp Hl].
  apply insert_by_score_sorted; [done| |by apply IH].
  by rewrite sort_by_score_perm.
Qed.

(** Insertion never moves a paper past one of equal score. *)
Lemma insert_by_score_stable s p l :
  filter (has_score s) (insert_by_score p l) = filter (has_score s) (p :: l).
Proof.
  induction l as [|q l IH]; simpl; [done|].
  destruct (_ <? _)%float eqn:Hlt; [|done].
  rewrite filter_cons, IH, !filter_cons.
  destruct (decide (has_score s p)) as [Hp|Hp]; [|done].
  assert (¬ has_score s q) as Hq.
  { unfold has_score in *. by rewrite (float_eqb_ltb_neq s _ _ Hp Hlt). }
  repeat case_decide; done.
Qed.

Lemma sort_by_score_stable s l :
  filter (has_score s) (sort_by_score l) = filter (has_score s) l.
Proof.
  induction l as [|p l IH]; simpl; [done|].
  by rewrite insert_by_score_stable, !filter_cons, IH.
Qed.
End SortByScore.

Section RerankFacts.
Variable get_embedding : string → list float.

Lemma slice_to_nonneg {A} (k : Z) (l : list A) :
  (0 ≤ k)%Z → slice_to k l = take (Z.to_nat k) l.
Proof. intros Hk. unfold slice_to. by rewrite (proj2 (Z.ltb_ge k 0) Hk). Qed.

Lemma score_paper_assigns (qe : list float) (p p' : Paper) :
  score_paper get_embedding qe p = Some p' →
  ∃ e s, p' = set_relevance_score s (set_embedding e p).
Proof.
  unfold score_paper. intros H.
  destruct (_cosine_similarity _ _) as [sim|]; simplify_eq/=. eauto.
Qed.

(** The score the loop assigns is the blend of lines 54-56 at the cosine
    similarity of the two embeddings. *)
Lemma score_paper_relevance_score (qe : list float) (p p' : Paper) :
  score_paper get_embedding qe p = Some p' →
  ∃ similarity,
    _cosine_similarity qe (get_embedding (paper_text p)) = Some similarity
    ∧ relevance_score p' = blend similarity (citation_count p) (year p)
    ∧ embedding p' = Some (get_embedding (paper_text p))
    ∧ without_embedding p' = without_embedding (set_relevance_score (relevance_score p') p).
Proof.
  unfold score_paper. intros H.
  destruct (_cosine_similarity _ _) as [sim|]; simplify_eq/=. eauto.
Qed.


(** C1. Whenever the scoring loop completes with numeric scores and
    [top_k] is a count, [rerank_papers] returns
    [min(top_k, len(papers))] papers, in descending order of
    [relevance_score]; the papers of any one score appear in the
    output in the order they had in the input (the output restricted
    to a score is an initial segment of the input restricted to it).
    An empty input yields an empty output. *)
Theorem rerank_papers_top_k_sorted_stable
    (query : string) (papers scored : list Paper) (top_k : Z) :
  (0 ≤ top_k)%Z →
  mapM (score_paper get_embedding (get_embedding query)) papers = Some scored →
  Forall score_is_number scored →
  ∃ out,
    rerank_papers get_embedding query papers top_k = Some out
    ∧ len out = Z.min top_k (len papers)
    ∧ StronglySorted score_ge out
    ∧ (∀ s, filter (has_score s) out `prefix_of` filter (has_score s) scored)
    ∧ out ⊆+ scored
    ∧ Forall2 (λ p p', ∃ e s, p' = set_relevance_score s (set_embedding e p))
              papers scored
    ∧ rerank_papers get_embedding query [] top_k = Some [].
Proof.
  intros Hk Hscored Hnum.
  exists (take (Z.to_nat top_k) (sort_by_score scored)).
  assert (length scored = length papers) as Hlen
    by (symmetry; by eapply length_mapM).
  split_and!.
  - unfold rerank_papers. destruct papers as [|p papers'].
    + simpl in Hscored. destruct scored; [|done]. simpl. by rewrite take_nil.
    + rewrite Hscored. simpl. by rewrite slice_to_nonneg.
  - unfold len. rewrite length_take, sort_by_score_length, Hlen. lia.
  - pose proof (sort_by_score_sorted scored Hnum) as Hs.
    rewrite <- (take_drop (Z.to_nat top_k) (sort_by_score scored)) in Hs.
    by apply StronglySorted_app_1_l in Hs.
  - intros s. rewrite <- (sort_by_score_stable s scored).
    rewrite <- (take_drop (Z.to_nat top_k) (sort_by_score scored)) at 2.
    rewrite filter_app. by apply prefix_app_r.
  - trans (sort_by_score scored).
    + apply sublist_submseteq, sublist_take.
    + by rewrite sort_by_score_perm.
  - apply mapM_Some in Hscored.
    eapply Forall2_impl; [exact Hscored|].
    intros p p' Hp. exact (score_paper_assigns _ _ _ Hp).
  - done.
Qed.
End RerankFacts.

(** A negative [top_k] is not a count: the slice drops papers from the
    end instead. *)
Example rerank_papers_negative_top_k :
  title <$> default [] (rerank_papers ex_embedding "q" ex_ranked_input (-1))
  = ["Third"; "First"].
Proof. by vm_compute. Qed.

(* ===================================================================== *)
(** * The relevance score *)
(* ===================================================================== *)

Section Blend.
Local Open Scope Q_scope.








(** On binary64 the recency term stays within its bound for the years
    2020 to 2030, and the score is exactly 1.0 and -0.6 at the two
    extremes. *)
Lemma recency_term_binary64 (year : Z) :
  (2020 ≤ year ≤ 2030)%Z →
  (0.15 * recency_score year <=? 0.15)%float = true.
Proof.
  intros H.
  assert (Forall (λ y, (0.15 * recency_score y <=? 0.15)%float = true)
                 (seqZ 2020 11)) as Hall
    by (apply (bool_decide_unpack _); by vm_compute).
  rewrite Forall_forall in Hall. apply Hall, elem_of_seqZ. lia.
Qed.

Lemma citation_term_binary64 (citation_count : Z) :
  (0 ≤ citation_count ≤ 1000)%Z →
  (0.25 * citation_score citation_count <=? 0.25)%float = true.
Proof.
  intros H.
  assert (Forall (λ c, (0.25 * citation_score c <=? 0.25)%float = true)
                 (seqZ 0 1001)) as Hall
    by (apply (bool_decide_unpack _); by vm_compute).
  rewrite Forall_forall in Hall. apply Hall, elem_of_seqZ. lia.
Qed.

Example blend_binary64_extremes :
  blend 1 100 2030 = 1%float ∧ blend (-1) 0 2020 = (-0.6)%float.
Proof. by vm_compute. Qed.
End Blend.

(* ===================================================================== *)
(** * Cosine similarity *)
(* ===================================================================== *)

Section CosineSimilarity.
Local Open Scope float_scope.

(** The guard of line 19: a NaN in either vector gives 0. *)
Lemma cosine_similarity_nan (v1 v2 : list float) :
  any_isnan v1 = true ∨ any_isnan v2 = true →
  _cosine_similarity v1 v2 = Some 0.
Proof.
  intros H. unfold _cosine_similarity.
  by destruct H as [-> | ->]; [|rewrite orb_true_r].
Qed.

(** The guard of line 25: a zero product of the norms gives 0. *)
Lemma cosine_similarity_zero_product (v1 v2 : list float) :
  length v1 = length v2 →
  (norm v1 * norm v2 =? 0) = true →
  _cosine_similarity v1 v2 = Some 0.
Proof.
  intros Hlen Hz. unfold _cosine_similarity.
  destruct (_ || _); [done|].
  by rewrite Hlen, Nat.eqb_refl, Hz.
Qed.

(** A quotient is returned only when the denominator is not [== 0]. *)
Lemma cosine_similarity_quotient (v1 v2 : list float) (r : float) :
  _cosine_similarity v1 v2 = Some r →
  r = 0 ∨ ((norm v1 * norm v2 =? 0) = false
           ∧ r = dot v1 v2 / (norm v1 * norm v2)).
Proof.
  unfold _cosine_similarity.
  destruct (_ || _); [intros; simplify_eq; by left|].
  destruct (negb _); [done|].
  destruct (_ =? 0) eqn:Hz; intros; simplify_eq; auto.
Qed.

(** C3.  The guard of [_cosine_similarity] tests for NaN only.  On
    the vectors [[inf]] and [[1.0]], neither of which holds a NaN,
    the function returns NaN instead of 0; on [[0.0]] and [[1e200]],
    both finite and the first of norm exactly zero, the product of the
    norms is [0 * inf], which is not [== 0], and the function returns
    NaN again.  A NaN similarity makes the relevance score NaN. *)
Theorem cosine_similarity_infinity_is_nan :
  (any_isnan [infinity] = false ∧ any_isnan [1] = false
   ∧ is_finite infinity = false
   ∧ _cosine_similarity [infinity] [1] = Some nan)
  ∧ (is_finite 0 = true ∧ is_finite 1e200 = true
     ∧ (norm [0] =? 0) = true
     ∧ _cosine_similarity [0] [1e200] = Some nan)
  ∧ is_nan (blend nan 0 2020) = true
  ∧ (is_nan ∘ relevance_score)
      <$> default [] (rerank_papers ex_embedding_inf "q"
                                    [ex_paper (Some "a") "First" 2021 10] 10)
    = [true].
Proof. vm_compute. done. Qed.
End CosineSimilarity.

(* ===================================================================== *)
(** * The result cache *)
(* ===================================================================== *)

Section CacheFacts.
Variable md5_hexdigest : string → string.

Lemma sorted_permutation (l l' : list string) :
  l ≡ₚ l' → sorted l = sorted l'.
Proof.
  intros H. unfold sorted.
  apply (Sorted_unique String.le); [apply Sorted_merge_sort; apply _..|].
  by rewrite !merge_sort_Permutation.
Qed.

(** C4.  The key of the answer cache does not depend on the order of
    the paper ids: after [cache_answer(question, ids, answer)],
    [get_cached_answer(question, ids')] returns [answer] for every
    permutation [ids'] of [ids]. *)
Theorem get_cached_answer_permutation
    (self : ResultCache) (question answer : string) (ids ids' : list string) :
  ids ≡ₚ ids' →
  answer_cache_input question ids' = answer_cache_input question ids
  ∧ get_cached_answer md5_hexdigest
      (cache_answer md5_hexdigest self question ids answer) question ids'
    = Some answer.
Proof.
  intros H.
  assert (answer_cache_input question ids' = answer_cache_input question ids)
    as Hkey by (unfold answer_cache_input; by rewrite (sorted_permutation _ _ H)).
  split; [done|].
  unfold get_cached_answer, cache_answer. simpl.
  by rewrite Hkey, lookup_insert_eq.
Qed.

Lemma paper_of_dict_of (p : Paper) :
  paper_of_dict (paper_dict_of p) = without_embedding p.
Proof. done. Qed.

Lemma without_embedding_id (p : Paper) :
  embedding p = None → without_embedding p = p.
Proof. destruct p; simpl; by intros ->. Qed.

(** C5, as the code has it.  [cache_papers(q, P)] followed by
    [get_cached_papers(q)] returns one dictionary per paper of [P], in
    order; rebuilding the papers from them preserves [title],
    [abstract], [year], [authors], [citation_count], [url],
    [paper_id], [tldr] and [relevance_score], and leaves [embedding]
    at [None]. *)
Theorem cached_papers_round_trip
    (self : ResultCache) (q : string) (P : list Paper) :
  get_cached_papers md5_hexdigest (cache_papers md5_hexdigest self q P) q
    = Some (paper_dict_of <$> P)
  ∧ paper_of_dict <$> (paper_dict_of <$> P) = without_embedding <$> P
  ∧ Forall2 (λ p p',
      title p' = title p ∧ abstract p' = abstract p ∧ year p' = year p
      ∧ authors p' = authors p ∧ citation_count p' = citation_count p
      ∧ url p' = url p ∧ paper_id p' = paper_id p ∧ tldr p' = tldr p
      ∧ relevance_score p' = relevance_score p ∧ embedding p' = None)
      P (paper_of_dict <$> (paper_dict_of <$> P)).
Proof.
  split_and!.
  - unfold get_cached_papers, cache_papers. simpl.
    by rewrite lookup_insert_eq.
  - rewrite <- list_fmap_compose. by apply list_fmap_ext.
  - rewrite <- list_fmap_compose. apply Forall2_fmap_r, Forall_Forall2_diag.
    by apply Forall_true.
Qed.

(** A paper that has been reranked carries an embedding; the round
    trip returns it without. *)
Lemma cached_papers_lose_embedding :
  let p := set_embedding [1%float; 0%float] (ex_paper (Some "a") "First" 2021 10) in
  get_cached_papers ex_hash (cache_papers ex_hash new_cache "q" [p]) "q"
    = Some [paper_dict_of p]
  ∧ embedding p = Some [1%float; 0%float]
  ∧ embedding <$> (paper_of_dict <$> [paper_dict_of p]) = [None]
  ∧ paper_of_dict <$> [paper_dict_of p] ≠ [p].
Proof. vm_compute. split_and!; done. Qed.
End CacheFacts.

(** Papers as [search_papers] builds them carry no embedding, so for
    them the round trip is the identity. *)
Lemma cached_papers_round_trip_fetched (P : list Paper) :
  Forall (λ p, embedding p = None) P →
  paper_of_dict <$> (paper_dict_of <$> P) = P.
Proof.
  intros H. rewrite <- list_fmap_compose.
  rewrite <- (list_fmap_id P) at 2. apply Forall_fmap_ext.
  eapply Forall_impl; [exact H|]. intros p Hp. simpl.
  by rewrite paper_of_dict_of, without_embedding_id.
Qed.

(* ===================================================================== *)
(** * The search client *)
(* ===================================================================== *)

Section SearchFacts.
Variable s2_get : string → Z → string → HttpOutcome.

Lemma has_abstract_length (item : Item) :
  has_abstract item = true →
  100 < String.length (abstract (paper_of_item item)).
Proof.
  unfold has_abstract, paper_of_item. simpl.
  destruct (item_abstract item) as [a|]; [|done]. simpl.
  intros [_ H%Nat.ltb_lt]%andb_true_iff. done.
Qed.

Lemma search_papers_no_embedding (query : string) (limit : Z) (yf : string) :
  Forall (λ p, embedding p = None) (search_papers s2_get query limit yf).
Proof.
  unfold search_papers. destruct (s2_get _ _ _) as [|status data]; [done|].
  destruct (negb _); [done|]. by apply Forall_fmap, Forall_true.
Qed.

(** C8.  Every paper [search_papers] returns has an abstract of more
    than 100 characters: on status 200 the result is, in order, the
    records whose abstract is present, non-empty and longer than 100
    characters.  On any other status, and when the request raises, the
    result is the empty list. *)
Theorem search_papers_filters_and_degrades
    (query : string) (limit : Z) (year_filter : string) :
  Forall (λ p, 100 < String.length (abstract p))
         (search_papers s2_get query limit year_filter)
  ∧ (s2_get query limit year_filter = RequestException →
     search_papers s2_get query limit year_filter = [])
  ∧ (∀ status data,
       s2_get query limit year_filter = Response status data →
       status ≠ 200%Z →
       search_papers s2_get query limit year_filter = [])
  ∧ (∀ data,
       s2_get query limit year_filter = Response 200 data →
       search_papers s2_get query limit year_filter
       = paper_of_item
           <$> filter (λ item, has_abstract item = true) (default [] data)).
Proof.
  unfold search_papers. split_and!.
  - destruct (s2_get _ _ _) as [|status data]; [done|].
    destruct (negb _); [done|].
    apply Forall_fmap, Forall_forall. intros item [H _]%list_elem_of_filter.
    by apply has_abstract_length.
  - by intros ->.
  - intros status data -> Hs.
    by rewrite (proj2 (Z.eqb_neq status 200) Hs).
  - by intros data ->.
Qed.

Lemma search_papers_excludes_short (item : Item) (a : string) :
  item_abstract item = Some a → String.length a ≤ 100 →
  has_abstract item = false.
Proof.
  intros Ha Hlen. unfold has_abstract. rewrite Ha.
  rewrite (proj2 (Nat.ltb_ge 100 (String.length a)) Hlen).
  apply andb_false_r.
Qed.
End SearchFacts.

(** Of a record with a 50-character abstract, one with a 129-character
    abstract, one without abstract and one of exactly 100 characters,
    [search_papers] keeps the second only. *)
Lemma search_papers_filters_and_degrades_example :
  (Forall (λ p, 100 < String.length (abstract p))
          (search_papers ex_s2_filter "SGLT2 inhibitors cardiovascular outcomes"
                         15 "2020-")
   ∧ String.length ex_short_abstract = 50
   ∧ title <$> search_papers ex_s2_filter
                 "SGLT2 inhibitors cardiovascular outcomes" 15 "2020-"
     = ["Long"])
  ∧ search_papers ex_s2_down "q" 15 "2020-" = [].
Proof.
  split; [split; [|by vm_compute]|].
  - apply (search_papers_filters_and_degrades ex_s2_filter).
  - by apply (search_papers_filters_and_degrades ex_s2_down).
Defined.

(* ===================================================================== *)
(** * The pipeline *)
(* ===================================================================== *)

Section ResultFacts.
Lemma empty_result_keys (q : string) (queries : list string) :
  dom (empty_result q queries) = list_to_set result_keys ∖ {["from_cache"]}
  ∧ empty_result q queries !! "from_cache" = None
  ∧ empty_result q queries !! "answer" = Some (VStr no_papers_answer)
  ∧ empty_result q queries !! "papers_analyzed" = Some (VInt 0)
  ∧ empty_result q queries !! "papers_used" = Some (VInt 0)
  ∧ empty_result q queries !! "papers" = Some (VPapers [])
  ∧ empty_result q queries !! "question" = Some (VStr q)
  ∧ empty_result q queries !! "queries_used" = Some (VQueries queries)
  ∧ empty_result q queries !! "contradictions" = Some VNone.
Proof.
  split_and!; by vm_compute.
Qed.

Lemma full_result_keys (q : string) (queries : list string)
    (all top : list Paper) (c : option string) (a : string) (b : bool) :
  dom (full_result q queries all top c a b) = list_to_set result_keys
  ∧ full_result q queries all top c a b !! "from_cache" = Some (VBool b)
  ∧ full_result q queries all top c a b !! "answer" = Some (VStr a).
Proof.
  split_and!; by vm_compute.
Qed.
End ResultFacts.

Lemma Forall_sublist {A} (P : A → Prop) (l k : list A) :
  k `sublist_of` l → Forall P l → Forall P k.
Proof.
  induction 1 as [|x k l _ IH|x k l _ IH]; intros H; [done|..];
    apply Forall_cons in H as [Hx Hl]; auto.
Qed.

Section RetrievalFacts.
Variable md5_hexdigest : string → string.
Variable s2_get : string → Z → string → HttpOutcome.

Lemma merge_fresh_paper_cases (st : Merged) (new_papers : list Paper)
    (p : Paper) :
  (∃ st1, merge_fresh_paper (st, new_papers) p = (st1, new_papers ++ [p])
          ∧ all_papers st1 = all_papers st ++ [p])
  ∨ merge_fresh_paper (st, new_papers) p = (st, new_papers).
Proof.
  unfold merge_fresh_paper.
  destruct (_ && _); [left; eauto|].
  destruct (_ && _); [left; eauto|by right].
Qed.

(** The fetched papers that pass deduplication are appended, in order,
    to the merged list and to [new_papers] alike. *)
Lemma merge_fresh_papers_added (papers : list Paper) (st : Merged)
    (new_papers : list Paper) :
  ∃ st' added,
    foldl merge_fresh_paper (st, new_papers) papers = (st', new_papers ++ added)
    ∧ all_papers st' = all_papers st ++ added
    ∧ added `sublist_of` papers.
Proof.
  revert st new_papers.
  induction papers as [|p papers IH]; intros st new_papers.
  - exists st, []. by rewrite !app_nil_r.
  - change (foldl merge_fresh_paper (st, new_papers) (p :: papers))
      with (foldl merge_fresh_paper (merge_fresh_paper (st, new_papers) p) papers).
    destruct (merge_fresh_paper_cases st new_papers p)
      as [(st1 & -> & Hst1) | ->].
    + destruct (IH st1 (new_papers ++ [p])) as (st' & added & -> & Hall & Hsub).
      exists st', (p :: added). rewrite Hall, Hst1, <- !app_assoc.
      split_and!; [done|done|]. by apply sublist_skip.
    + destruct (IH st new_papers) as (st' & added & -> & Hall & Hsub).
      exists st', added. split_and!; [done|done|]. by apply sublist_cons.
Qed.

(** C6, as the code has it.  For a query that misses the papers cache,
    the entry written is the ordered list of the papers this query
    added to the merged list, that is the fetched papers that passed
    deduplication against the papers of the earlier queries; read
    back, it yields exactly those papers.  When no fetched paper
    passes, no entry is written. *)
Theorem cache_miss_stores_new_papers
    (use_cached : bool) (papers_per_query : Z) (st : Merged)
    (c : ResultCache) (query : string) :
  get_cached_papers md5_hexdigest c query = None →
  ∃ st' c' new_papers,
    retrieve_query md5_hexdigest s2_get use_cached papers_per_query
                   (st, Some c) query = (st', Some c')
    ∧ all_papers st' = all_papers st ++ new_papers
    ∧ new_papers `sublist_of` search_papers s2_get query papers_per_query "2020-"
    ∧ (new_papers ≠ [] →
       get_cached_papers md5_hexdigest c' query
         = Some (paper_dict_of <$> new_papers)
       ∧ paper_of_dict <$> (paper_dict_of <$> new_papers) = new_papers)
    ∧ (new_papers = [] → c' = c).
Proof.
  intros Hmiss. unfold retrieve_query. rewrite Hmiss.
  assert (match use_cached with true => None | false => None end
          = (None : option (list PaperDict))) as -> by by destruct use_cached.
  destruct (merge_fresh_papers_added
              (search_papers s2_get query papers_per_query "2020-") st [])
    as (st' & added & Hfold & Hall & Hsub).
  rewrite Hfold. simpl.
  destruct added as [|p added].
  - exists st', c, []. by split_and!.
  - exists st', (cache_papers md5_hexdigest c query (p :: added)), (p :: added).
    split_and!; [done|done|done| |done].
    intros _. split.
    + unfold get_cached_papers, cache_papers. simpl.
      by rewrite lookup_insert_eq.
    + apply cached_papers_round_trip_fetched.
      eapply Forall_sublist; [exact Hsub|].
      apply search_papers_no_embedding.
Qed.
End RetrievalFacts.

Section Deduplication.
Variable md5_hexdigest : string → string.
Variable s2_get : string → Z → string → HttpOutcome.

Lemma merged_ids_snoc (all : list Paper) (seen seen' : gset string) (p : Paper) :
  merged_ids (mkMerged (all ++ [p]) seen')
  = merged_ids (mkMerged all seen)
    ++ (if truthy (paper_id p) then [paper_id p] else []).
Proof.
  unfold merged_ids. simpl. rewrite fmap_app, filter_app. f_equal.
  simpl. rewrite filter_cons. by destruct (truthy (paper_id p)).
Qed.

Lemma ids_consistent_add (st : Merged) (p : Paper) :
  ids_consistent st → paper_id p ∉ seen_paper_ids st →
  ids_consistent (mkMerged (all_papers st ++ [p])
                           (seen_paper_ids st ∪ {[paper_id p]})).
Proof.
  intros [Hnd Hseen] Hnew. destruct st as [all seen]. simpl in *.
  unfold ids_consistent. rewrite (merged_ids_snoc all seen). simpl.
  destruct (truthy (paper_id p)).
  - split.
    + apply NoDup_app. split_and!; [done| |apply NoDup_singleton].
      intros i Hi ->%list_elem_of_singleton. by apply Hnew, Hseen.
    + intros i [Hi|Hi%list_elem_of_singleton]%elem_of_app; set_solver.
  - rewrite app_nil_r. split; [done|]. intros i Hi. set_solver.
Qed.

Lemma ids_consistent_add_untracked (st : Merged) (p : Paper) :
  ids_consistent st → truthy (paper_id p) = false →
  ids_consistent (mkMerged (all_papers st ++ [p]) (seen_paper_ids st)).
Proof.
  intros [Hnd Hseen] Hempty. destruct st as [all seen]. simpl in *.
  unfold ids_consistent. rewrite (merged_ids_snoc all seen). simpl.
  by rewrite Hempty, app_nil_r.
Qed.

Lemma merge_cached_paper_consistent (st : Merged) (d : PaperDict) :
  ids_consistent st → ids_consistent (merge_cached_paper st d).
Proof.
  intros H. unfold merge_cached_paper. case_bool_decide; [|done].
  by apply (ids_consistent_add st (paper_of_dict d)).
Qed.

Lemma merge_fresh_paper_consistent (acc : Merged * list Paper) (p : Paper) :
  ids_consistent acc.1 → ids_consistent (merge_fresh_paper acc p).1.
Proof.
  destruct acc as [st new_papers]. simpl. intros H. unfold merge_fresh_paper.
  destruct (truthy (paper_id p)) eqn:Hid; simpl.
  - case_bool_decide; simpl; [|done]. by apply ids_consistent_add.
  - case_bool_decide; simpl; [|done]. by apply ids_consistent_add_untracked.
Qed.

Lemma foldl_invariant {A B} (I : A → Prop) (f : A → B → A) (l : list B) (a : A) :
  (∀ a b, I a → I (f a b)) → I a → I (foldl f a l).
Proof. intros Hf. revert a. induction l; simpl; auto. Qed.

Lemma retrieve_query_consistent (use_cached : bool) (ppq : Z)
    (acc : Merged * option ResultCache) (query : string) :
  ids_consistent acc.1 →
  ids_consistent (retrieve_query md5_hexdigest s2_get use_cached ppq acc query).1.
Proof.
  destruct acc as [st cache]. simpl. intros H. unfold retrieve_query.
  assert (∀ papers,
    ids_consistent (foldl merge_fresh_paper (st, []) papers).1) as Hfresh.
  { intros papers.
    apply (foldl_invariant (λ acc, ids_consistent acc.1)); [|done].
    apply merge_fresh_paper_consistent. }
  assert (∀ ds, ids_consistent (foldl merge_cached_paper st ds)) as Hcached.
  { intros ds. apply (foldl_invariant ids_consistent); [|done].
    apply merge_cached_paper_consistent. }
  destruct (match use_cached with true => _ | false => _ end)
    as [[|d ds]|];
    try (destruct (foldl merge_fresh_paper _ _) as [st' new_papers] eqn:Hf;
         specialize (Hfresh (search_papers s2_get query ppq "2020-"));
         rewrite Hf in Hfresh; by destruct cache, new_papers).
  apply Hcached.
Qed.

(** Once the empty string is in [seen_paper_ids], the cached path drops
    every paper without [paper_id], whatever its title. *)
Lemma merge_cached_paper_drops_empty_id (st : Merged) (d : PaperDict) :
  "" ∈ seen_paper_ids st → d_paper_id d = "" → merge_cached_paper st d = st.
Proof.
  intros Hseen Hd. unfold merge_cached_paper. rewrite Hd.
  by rewrite bool_decide_eq_false_2 by auto.
Qed.

Lemma merge_cached_paper_records_empty_id (st : Merged) (d : PaperDict) :
  d_paper_id d = "" → "" ∈ seen_paper_ids (merge_cached_paper st d).
Proof.
  intros Hd. unfold merge_cached_paper. rewrite Hd.
  case_bool_decide as H; simpl; [set_solver|done].
Qed.

(** The half of C7 that holds on every path: whatever the queries
    return, cached or fresh, no non-empty [paper_id] occurs twice in
    the merged list. *)
Lemma retrieve_no_duplicate_ids (use_cached : bool) (ppq : Z)
    (cache : option ResultCache) (queries : list string) :
  NoDup (merged_ids (retrieve md5_hexdigest s2_get use_cached ppq cache queries).1).
Proof.
  apply (foldl_invariant (λ acc, ids_consistent acc.1)
           (retrieve_query md5_hexdigest s2_get use_cached ppq) queries).
  - intros. by apply retrieve_query_consistent.
  - split; [constructor|]. intros i Hi. by apply elem_of_nil in Hi.
Qed.
End Deduplication.

(** The entry for the second query of [ex_s2_overlap], fetched after
    the first query merged the paper ["a"]. *)
Lemma cache_miss_stores_new_papers_example :
  ∃ st' c' new_papers,
    retrieve_query ex_hash ex_s2_overlap true 15
      (mkMerged [ex_paper (Some "a") "First" 2021 10] {["a"]}, Some new_cache)
      "q2" = (st', Some c')
    ∧ all_papers st'
      = [ex_paper (Some "a") "First" 2021 10] ++ new_papers
    ∧ new_papers `sublist_of` search_papers ex_s2_overlap "q2" 15 "2020-"
    ∧ (new_papers ≠ [] →
       get_cached_papers ex_hash c' "q2" = Some (paper_dict_of <$> new_papers)
       ∧ paper_of_dict <$> (paper_dict_of <$> new_papers) = new_papers)
    ∧ (new_papers = [] → c' = new_cache).
Proof.
  apply (cache_miss_stores_new_papers ex_hash ex_s2_overlap true 15
           (mkMerged [ex_paper (Some "a") "First" 2021 10] {["a"]})
           new_cache "q2").
  reflexivity.
Defined.

(** Two queries on an empty cache: the search returns the papers ["a"]
    and ["b"] for the second query, and the entry written for it holds
    ["b"] alone. *)
Lemma cache_entry_omits_shared_paper :
  get_cached_papers ex_hash new_cache "q2" = None
  ∧ paper_id <$> search_papers ex_s2_overlap "q2" 15 "2020-" = ["a"; "b"]
  ∧ (ex_overlap_run.2 ≫= λ c, get_cached_papers ex_hash c "q2")
    = Some [paper_dict_of (ex_paper (Some "b") "Second" 2022 20)]
  ∧ (ex_overlap_run.2 ≫= λ c, get_cached_papers ex_hash c "q2")
    ≠ Some (paper_dict_of <$> search_papers ex_s2_overlap "q2" 15 "2020-").
Proof. vm_compute. split_and!; done. Qed.

(** C7.  On the cached path the empty [paper_id] is treated as an id:
    a first run fetches two papers without [paper_id], titled "First"
    and "Second", merges both and caches both; a second run reads them
    back from the cache and merges "First" only, although no paper
    titled "Second" is in the merged list. *)
Theorem cached_papers_without_id_collapse :
  (title <$> all_papers ex_first_run.1 = ["First"; "Second"]
   ∧ paper_id <$> all_papers ex_first_run.1 = [""; ""])
  ∧ (ex_first_run.2 ≫= λ c, get_cached_papers ex_hash c "q")
    = Some (paper_dict_of <$> all_papers ex_first_run.1)
  ∧ title <$> all_papers ex_second_run.1 = ["First"]
  ∧ "Second" ∉ title <$> all_papers ex_second_run.1.
Proof.
  split_and!; try by vm_compute.
  assert (title <$> all_papers ex_second_run.1 = ["First"]) as ->
    by by vm_compute.
  intros H. apply list_elem_of_singleton in H. discriminate H.
Qed.

Section PipelineFacts.
Variable md5_hexdigest : string → string.
Variable s2_get : string → Z → string → HttpOutcome.
Variable get_embedding : string → list float.
Variable generate_search_queries : string → option (list string).
Variable detect_contradictions : list Paper → option string.
Variable synthesize_findings :
  string → list Paper → option string → option string.

Local Abbreviation retrieve' := (retrieve md5_hexdigest s2_get).
Local Abbreviation answer_question' :=
  (answer_question md5_hexdigest s2_get get_embedding
     generate_search_queries detect_contradictions synthesize_findings).

(** The retrieval loop writes to [papers/] only. *)
Lemma retrieve_query_answers_dir (use_cached : bool) (ppq : Z)
    (acc : Merged * option ResultCache) (query : string) :
  answers_dir <$> (retrieve_query md5_hexdigest s2_get use_cached ppq acc query).2
  = answers_dir <$> acc.2.
Proof.
  destruct acc as [st cache]. unfold retrieve_query.
  destruct (match use_cached with true => _ | false => _ end)
    as [[|d ds]|]; try done;
    destruct (foldl merge_fresh_paper _ _) as [st' new_papers];
    by destruct cache, new_papers.
Qed.

Lemma retrieve_answers_dir (use_cached : bool) (ppq : Z)
    (cache : option ResultCache) (queries : list string) :
  answers_dir <$> (retrieve' use_cached ppq cache queries).2
  = answers_dir <$> cache.
Proof.
  apply (foldl_invariant
           (λ acc : Merged * option ResultCache,
              answers_dir <$> acc.2 = answers_dir <$> cache)
           (retrieve_query md5_hexdigest s2_get use_cached ppq) queries);
    [|done].
  intros acc query <-. apply retrieve_query_answers_dir.
Qed.

(** Every dictionary [answer_question] returns is one of the three
    literals of the source. *)
Lemma answer_question_result_shape (cache : option ResultCache)
    (q : string) (ppq : Z) (detect : bool) (top_k : Z) (use_cached : bool)
    (r : gmap string Value) :
  (answer_question' cache q ppq detect top_k use_cached).2 = Some r →
  (∃ queries, r = empty_result q queries)
  ∨ (∃ queries all top c a b, r = full_result q queries all top c a b).
Proof.
  unfold answer_question.
  destruct (generate_search_queries q) as [queries|]; [|done].
  destruct (retrieve' _ _ _ _) as [st cache1].
  destruct (all_papers st) as [|p all]; [intros; simplify_eq/=; eauto|].
  destruct (rerank_papers _ _ _ _) as [top|]; [|done].
  destruct (match use_cached with true => _ | false => _ end) as [[|? ?]|];
    try (intros; simplify_eq/=; right; by eauto 10);
    destruct (_ && _); try destruct (detect_contradictions top); simpl;
    try done;
    destruct (synthesize_findings _ _ _); intros; simplify_eq/=;
    right; eauto 10.
Qed.

(** C9.  When no paper survives retrieval, [answer_question] returns
    the dictionary of lines 76-84: the fixed answer, both counts at 0,
    no papers, and no key [from_cache]; of the eight documented keys
    it holds the other seven. *)
Theorem answer_question_no_papers_lacks_from_cache
    (cache : option ResultCache) (q : string) (ppq : Z) (detect : bool)
    (top_k : Z) (use_cached : bool) (queries : list string) :
  generate_search_queries q = Some queries →
  all_papers (retrieve' use_cached ppq cache queries).1 = [] →
  ∃ r,
    (answer_question' cache q ppq detect top_k use_cached).2 = Some r
    ∧ r !! "from_cache" = None
    ∧ dom r = list_to_set result_keys ∖ {["from_cache"]}
    ∧ r !! "answer" = Some (VStr no_papers_answer)
    ∧ r !! "papers_analyzed" = Some (VInt 0)
    ∧ r !! "papers_used" = Some (VInt 0)
    ∧ r !! "papers" = Some (VPapers []).
Proof.
  intros Hgen Hnone. exists (empty_result q queries).
  split.
  - unfold answer_question. rewrite Hgen.
    destruct (retrieve' _ _ _ _) as [st cache1]. simpl in Hnone.
    by rewrite Hnone.
  - destruct (empty_result_keys q queries) as (?&?&?&?&?&?&_). by split_and!.
Qed.

Lemma paper_ids_all_empty (top_papers : list Paper) :
  Forall (λ p, paper_id p = "") top_papers →
  filter (λ i, truthy i = true) (paper_id <$> top_papers) = [].
Proof.
  induction 1 as [|p l Hp _ IH]; [done|].
  rewrite fmap_cons, filter_cons, Hp, IH. by case_decide.
Qed.

(** C10.  When the run reaches reranking and every top paper has an
    empty [paper_id], [answer_question] synthesizes an answer and
    returns it with [from_cache] false, whatever the answer cache
    holds; the cache it leaves is the one the retrieval loop left, and
    its [answers/] is that of the start. *)
Theorem answer_question_without_ids_skips_answer_cache
    (cache cache1 : option ResultCache) (q : string) (ppq : Z)
    (detect : bool) (top_k : Z) (use_cached : bool)
    (queries : list string) (st : Merged) (top_papers : list Paper) :
  generate_search_queries q = Some queries →
  retrieve' use_cached ppq cache queries = (st, cache1) →
  all_papers st ≠ [] →
  rerank_papers get_embedding q (all_papers st) top_k = Some top_papers →
  Forall (λ p, paper_id p = "") top_papers →
  (detect && (2 <=? len top_papers)%Z = true →
   is_Some (detect_contradictions top_papers)) →
  (∀ c, is_Some (synthesize_findings q top_papers c)) →
  ∃ contradictions answer,
    answer_question' cache q ppq detect top_k use_cached
    = (cache1,
       Some (full_result q queries (all_papers st) top_papers
                         contradictions answer false))
    ∧ synthesize_findings q top_papers contradictions = Some answer
    ∧ full_result q queries (all_papers st) top_papers contradictions
                  answer false !! "from_cache" = Some (VBool false)
    ∧ answers_dir <$> cache1 = answers_dir <$> cache.
Proof.
  intros Hgen Hretr Hsome Hrank Hids Hdetect Hsynth.
  pose proof (paper_ids_all_empty top_papers Hids) as Hno_ids.
  pose proof (retrieve_answers_dir use_cached ppq cache queries) as Hdir.
  rewrite Hretr in Hdir. simpl in Hdir.
  unfold answer_question. rewrite Hgen, Hretr.
  destruct (all_papers st) as [|p all] eqn:Hall; [done|].
  rewrite Hrank, Hno_ids.
  assert (match use_cached, cache1, @nil string with
          | true, Some c0, _ :: _ =>
              get_cached_answer md5_hexdigest c0 q []
          | _, _, _ => None
          end = None) as -> by by destruct use_cached, cache1.
  assert (match cache1, @nil string with
          | Some c0, _ :: _ => None
          | _, _ => cache1
          end = cache1) as Hkeep by by destruct cache1.
  destruct (detect && (2 <=? len top_papers)%Z).
  - destruct (Hdetect eq_refl) as [c ->]. simpl.
    destruct (Hsynth (Some c)) as [answer Hans]. rewrite Hans.
    exists (Some c), answer. split_and!; [|done|by vm_compute|done].
    by destruct cache1.
  - simpl. destruct (Hsynth None) as [answer Hans]. rewrite Hans.
    exists None, answer. split_and!; [|done|by vm_compute|done].
    by destruct cache1.
Qed.
End PipelineFacts.

(* ===================================================================== *)
(** * The statements at concrete inputs *)
(* ===================================================================== *)

(** Three papers, the first two of equal score, reranked with
    [top_k = 2]. *)
Lemma rerank_papers_top_k_sorted_stable_example :
  ∃ out,
    rerank_papers ex_embedding "q" ex_ranked_input 2 = Some out
    ∧ len out = Z.min 2 (len ex_ranked_input)
    ∧ StronglySorted score_ge out
    ∧ (∀ s, filter (has_score s) out `prefix_of` filter (has_score s) ex_scored)
    ∧ out ⊆+ ex_scored
    ∧ Forall2 (λ p p', ∃ e s, p' = set_relevance_score s (set_embedding e p))
              ex_ranked_input ex_scored
    ∧ rerank_papers ex_embedding "q" [] 2 = Some [].
Proof.
  apply (rerank_papers_top_k_sorted_stable
           ex_embedding "q" ex_ranked_input ex_scored 2).
  - lia.
  - by vm_compute.
  - apply (bool_decide_unpack _). by vm_compute.
Defined.

(** The ids ["b"; "a"] written, the ids ["a"; "b"] read. *)
Lemma get_cached_answer_permutation_example :
  answer_cache_input "Q" ["a"; "b"] = answer_cache_input "Q" ["b"; "a"]
  ∧ get_cached_answer ex_hash
      (cache_answer ex_hash new_cache "Q" ["b"; "a"] "A") "Q" ["a"; "b"]
    = Some "A".
Proof.
  apply (get_cached_answer_permutation ex_hash new_cache "Q" "A"
           ["b"; "a"] ["a"; "b"]).
  apply Permutation_swap.
Defined.

(** A run whose only query meets a search API that is down. *)
Lemma answer_question_no_papers_example :
  ∃ r,
    (answer_question ex_hash ex_s2_down ex_embedding ex_one_query ex_detect
       ex_synthesize (Some new_cache) "Q" 15 true 8 true).2 = Some r
    ∧ r !! "from_cache" = None
    ∧ dom r = list_to_set result_keys ∖ {["from_cache"]}
    ∧ r !! "answer" = Some (VStr no_papers_answer)
    ∧ r !! "papers_analyzed" = Some (VInt 0)
    ∧ r !! "papers_used" = Some (VInt 0)
    ∧ r !! "papers" = Some (VPapers []).
Proof.
  apply (answer_question_no_papers_lacks_from_cache
           ex_hash ex_s2_down ex_embedding ex_one_query ex_detect ex_synthesize
           (Some new_cache) "Q" 15 true 8 true ["q"]).
  - reflexivity.
  - by vm_compute.
Defined.

(** A run whose two papers carry no [paper_id]. *)
Lemma answer_question_without_ids_example :
  ∃ contradictions answer,
    answer_question ex_hash ex_s2_no_ids ex_embedding ex_one_query ex_detect
      ex_synthesize (Some new_cache) "Q" 15 true 8 true
    = (ex_first_run.2,
       Some (full_result "Q" ["q"] (all_papers ex_first_run.1) ex_top_no_ids
                         contradictions answer false))
    ∧ ex_synthesize "Q" ex_top_no_ids contradictions = Some answer
    ∧ full_result "Q" ["q"] (all_papers ex_first_run.1) ex_top_no_ids
                  contradictions answer false !! "from_cache"
      = Some (VBool false)
    ∧ answers_dir <$> ex_first_run.2 = answers_dir <$> Some new_cache.
Proof.
  apply (answer_question_without_ids_skips_answer_cache
           ex_hash ex_s2_no_ids ex_embedding ex_one_query ex_detect
           ex_synthesize (Some new_cache) ex_first_run.2 "Q" 15 true 8 true
           ["q"] ex_first_run.1 ex_top_no_ids).
  - reflexivity.
  - unfold ex_first_run. by destruct (retrieve _ _ _ _ _ _).
  - by vm_compute.
  - by vm_compute.
  - apply (bool_decide_unpack _). by vm_compute.
  - intros _. by eexists.
  - intros c. by eexists.
Defined.


(* ===================================================================== *)
(** * Further properties of the result cache *)
(* ===================================================================== *)

Lemma string_app_assoc (s1 s2 s3 : string) :
  (s1 +:+ s2) +:+ s3 = s1 +:+ (s2 +:+ s3).
Proof.
  unfold String.app. induction s1 as [|c s1 IH]; simpl; [done|].
  by rewrite IH.
Qed.

Section CacheFrame.
Variable md5_hexdigest : string → string.

(** After [clear_cache] every lookup misses, in both namespaces, and
    the cache serves the next write. *)
Theorem clear_cache_forgets
    (self : ResultCache) (q q' question : string) (ids : list string)
    (P : list Paper) :
  get_cached_papers md5_hexdigest (clear_cache self) q' = None
  ∧ get_cached_answer md5_hexdigest (clear_cache self) question ids = None
  ∧ get_cached_papers md5_hexdigest
      (cache_papers md5_hexdigest (clear_cache self) q P) q
    = Some (paper_dict_of <$> P).
Proof.
  split_and!; [done|done|].
  unfold get_cached_papers, cache_papers. simpl. by rewrite lookup_insert_eq.
Qed.

(** A write to one namespace leaves the other namespace, and every
    other key of its own, as they were. *)
Theorem cache_writes_are_local
    (self : ResultCache) (q question answer : string) (ids : list string)
    (P : list Paper) :
  (∀ question' ids',
     get_cached_answer md5_hexdigest (cache_papers md5_hexdigest self q P)
                       question' ids'
     = get_cached_answer md5_hexdigest self question' ids')
  ∧ (∀ q',
       get_cached_papers md5_hexdigest
         (cache_answer md5_hexdigest self question ids answer) q'
       = get_cached_papers md5_hexdigest self q')
  ∧ (∀ q', md5_hexdigest q' ≠ md5_hexdigest q →
       get_cached_papers md5_hexdigest (cache_papers md5_hexdigest self q P) q'
       = get_cached_papers md5_hexdigest self q')
  ∧ (∀ question' ids',
       md5_hexdigest (answer_cache_input question' ids')
       ≠ md5_hexdigest (answer_cache_input question ids) →
       get_cached_answer md5_hexdigest
         (cache_answer md5_hexdigest self question ids answer) question' ids'
       = get_cached_answer md5_hexdigest self question' ids').
Proof.
  split_and!; try done.
  - intros q' Hne. unfold get_cached_papers, cache_papers, _get_cache_key.
    simpl. by rewrite lookup_insert_ne.
  - intros question' ids' Hne.
    unfold get_cached_answer, cache_answer, _get_cache_key. simpl.
    by rewrite lookup_insert_ne.
Qed.

(** The file of a key is replaced by the next write to that key, and a
    read never compares the query stored in the file with the query
    asked for: whenever two queries hash alike, the second write is
    what both read. *)
Theorem cache_papers_last_write_wins
    (self : ResultCache) (q q' : string) (P1 P2 : list Paper) :
  md5_hexdigest q' = md5_hexdigest q →
  get_cached_papers md5_hexdigest
    (cache_papers md5_hexdigest (cache_papers md5_hexdigest self q P1) q' P2) q
  = Some (paper_dict_of <$> P2)
  ∧ cache_papers md5_hexdigest (cache_papers md5_hexdigest self q P1) q' P2
    = cache_papers md5_hexdigest self q' P2.
Proof.
  intros Hkey. unfold get_cached_papers, cache_papers, _get_cache_key. simpl.
  rewrite Hkey, lookup_insert_eq. split; [done|]. f_equal.
  by rewrite insert_insert_eq.
Qed.

Lemma sorted_cons_least (i : string) (ids : list string) :
  Forall (String.le i) ids → sorted (i :: ids) = i :: sorted ids.
Proof.
  intros Hle. unfold sorted.
  apply (Sorted_unique String.le).
  - apply Sorted_merge_sort; apply _.
  - apply Sorted_cons; [apply Sorted_merge_sort; apply _|].
    assert (Forall (String.le i) (merge_sort String.le ids)) as H
      by by rewrite merge_sort_Permutation.
    destruct H; by constructor.
  - by rewrite !merge_sort_Permutation.
Qed.

(** The key string joins the question and the ids with ["|"] and no
    escaping: a question that ends in ["|" + id], asked with the
    remaining ids, has the key of the shorter question with all the ids,
    and reads the answer cached for it. *)
Theorem answer_key_separator_collision
    (self : ResultCache) (question answer i : string) (ids : list string) :
  ids ≠ [] → Forall (String.le i) ids →
  answer_cache_input (question +:+ "|" +:+ i) ids
  = answer_cache_input question (i :: ids)
  ∧ get_cached_answer md5_hexdigest
      (cache_answer md5_hexdigest self question (i :: ids) answer)
      (question +:+ "|" +:+ i) ids
    = Some answer.
Proof.
  intros Hne Hle.
  assert (answer_cache_input (question +:+ "|" +:+ i) ids
          = answer_cache_input question (i :: ids)) as Hkey.
  { unfold answer_cache_input. rewrite (sorted_cons_least i ids Hle).
    assert (sorted ids ≠ []) as Hs.
    { intros Hnil. apply Hne. apply Permutation_nil_r.
      rewrite <- Hnil. unfold sorted. by rewrite merge_sort_Permutation. }
    destruct (sorted ids) as [|j js]; [done|].
    change (String.concat "|" (i :: j :: js))
      with (i +:+ "|" +:+ String.concat "|" (j :: js)).
    by rewrite !string_app_assoc. }
  split; [done|].
  unfold get_cached_answer, cache_answer, _get_cache_key. simpl.
  by rewrite Hkey, lookup_insert_eq.
Qed.
End CacheFrame.

Lemma cache_papers_last_write_wins_example :
  get_cached_papers ex_hash
    (cache_papers ex_hash
       (cache_papers ex_hash new_cache "q" [ex_paper (Some "a") "First" 2021 10])
       "q" [ex_paper (Some "b") "Second" 2022 20]) "q"
  = Some (paper_dict_of <$> [ex_paper (Some "b") "Second" 2022 20])
  ∧ cache_papers ex_hash
      (cache_papers ex_hash new_cache "q" [ex_paper (Some "a") "First" 2021 10])
      "q" [ex_paper (Some "b") "Second" 2022 20]
    = cache_papers ex_hash new_cache "q" [ex_paper (Some "b") "Second" 2022 20].
Proof.
  by apply (cache_papers_last_write_wins ex_hash new_cache "q" "q").
Defined.

(** The question ["Q|a"] with the id ["b"] reads the answer cached for
    the question ["Q"] with the ids ["a"] and ["b"]. *)
Lemma answer_key_separator_collision_example :
  answer_cache_input ("Q" +:+ "|" +:+ "a") ["b"]
  = answer_cache_input "Q" ["a"; "b"]
  ∧ get_cached_answer ex_hash
      (cache_answer ex_hash new_cache "Q" ["a"; "b"] "A")
      ("Q" +:+ "|" +:+ "a") ["b"]
    = Some "A".
Proof.
  apply (answer_key_separator_collision ex_hash new_cache "Q" "A" "a" ["b"]).
  - done.
  - repeat constructor.
Defined.

(* ===================================================================== *)
(** * Further properties of the reranker *)
(* ===================================================================== *)

Section FloatProduct.
Local Open Scope float_scope.

Lemma SFmul_comm (prec emax : Z) (x y : spec_float) :
  SFmul prec emax x y = SFmul prec emax y x.
Proof.
  destruct x as [sx|sx| |sx mx ex], y as [sy|sy| |sy my ey]; simpl;
    try done; rewrite (xorb_comm sx sy); try done.
  by rewrite (Pos.mul_comm mx my), (Z.add_comm ex ey).
Qed.

Lemma float_mul_comm (x y : float) : x * y = y * x.
Proof.
  apply Prim2SF_inj. rewrite !mul_spec. apply SFmul_comm.
Qed.

Lemma is_finite_Prim2SF (x : float) :
  is_finite x = true →
  (∃ s, Prim2SF x = S754_zero s) ∨ (∃ s m e, Prim2SF x = S754_finite s m e).
Proof.
  unfold is_finite, is_infinity.
  intros [Hnan Hinf]%negb_true_iff%orb_false_iff.
  apply is_nan_Prim2SF in Hnan.
  rewrite FloatAxioms.eqb_spec, abs_spec in Hinf.
  destruct (Prim2SF x) as [s|s| |s m e]; eauto; [|done].
  by vm_compute in Hinf.
Qed.

(** Zero times a finite number is [== 0]. *)
Lemma float_zero_mul_finite (x : float) :
  is_finite x = true → (0 * x =? 0) = true.
Proof.
  intros H. rewrite FloatAxioms.eqb_spec, mul_spec.
  by destruct (is_finite_Prim2SF x H) as [[s ->]|(s & m & e & ->)];
    destruct s.
Qed.

Lemma dot_comm_acc (acc : float) (v1 v2 : list float) :
  foldl (λ acc ab, acc + ab.1 * ab.2) acc (zip v1 v2)
  = foldl (λ acc ab, acc + ab.1 * ab.2) acc (zip v2 v1).
Proof.
  revert acc v2. induction v1 as [|a v1 IH]; intros acc [|b v2]; simpl;
    try done.
  by rewrite (float_mul_comm a b), IH.
Qed.

Lemma cosine_similarity_swap (vec1 vec2 : list float) :
  _cosine_similarity vec1 vec2 = _cosine_similarity vec2 vec1.
Proof.
  unfold _cosine_similarity.
  rewrite (orb_comm (any_isnan vec1)), (Nat.eqb_sym (length vec1)).
  assert (dot vec1 vec2 = dot vec2 vec1) as -> by apply dot_comm_acc.
  by rewrite (float_mul_comm (norm vec1)).
Qed.

(** Cosine similarity is symmetric, bit for bit: the same value, or the
    same [ValueError], and a swapped pair with a NaN in either vector
    gives 0 again. *)
Theorem cosine_similarity_symmetric (vec1 vec2 : list float) :
  _cosine_similarity vec1 vec2 = _cosine_similarity vec2 vec1
  ∧ (any_isnan vec1 = true → _cosine_similarity vec2 vec1 = Some 0).
Proof.
  split; [apply cosine_similarity_swap|].
  intros H. apply cosine_similarity_nan. by right.
Qed.

(** The all-zero vector that [_simple_embedding] returns for a text
    without words is safe: against any vector of the same length whose
    norm is finite, the similarity is 0. *)
Theorem cosine_similarity_zero_vector (n : nat) (v : list float) :
  length v = n → is_finite (norm v) = true →
  _cosine_similarity (replicate n 0) v = Some 0
  ∧ _cosine_similarity v (replicate n 0) = Some 0.
Proof.
  intros Hlen Hfin.
  assert (norm (replicate n 0) = 0) as Hzero.
  { unfold norm, dot.
    assert (∀ m, foldl (λ acc ab, acc + ab.1 * ab.2) 0
                   (zip (replicate m 0) (replicate m 0)) = 0) as ->; [|done].
    induction m as [|m IH]; simpl; [done|].
    by change (0 + 0 * 0) with 0. }
  assert (_cosine_similarity (replicate n 0) v = Some 0) as H.
  { apply cosine_similarity_zero_product.
    - by rewrite length_replicate.
    - rewrite Hzero. by apply float_zero_mul_finite. }
  split; [done|]. by rewrite cosine_similarity_swap.
Qed.
End FloatProduct.

Section RerankLength.
Variable get_embedding : string → list float.

Lemma scored_from_inputs (qe : list float) (papers scored : list Paper) :
  Forall2 (λ p p', score_paper get_embedding qe p = Some p') papers scored →
  Forall (λ p', ∃ p e s, p ∈ papers
                         ∧ p' = set_relevance_score s (set_embedding e p)) scored.
Proof.
  induction 1 as [|p p' l l' Hp _ IH]; [done|]. constructor.
  - destruct (score_paper_assigns _ _ _ _ Hp) as (e & s & ->).
    exists p, e, s. split; [left|done].
  - eapply Forall_impl; [exact IH|].
    intros q (p0 & e & s & Hin & ->). exists p0, e, s.
    split; [by right|done].
Qed.

Lemma rerank_papers_len (query : string) (papers out : list Paper) (top_k : Z) :
  rerank_papers get_embedding query papers top_k = Some out →
  ∃ scored,
    mapM (score_paper get_embedding (get_embedding query)) papers = Some scored
    ∧ out = slice_to top_k (sort_by_score scored)
    ∧ len out = (if (top_k <? 0)%Z then Z.max (len papers + top_k) 0
                 else Z.min top_k (len papers)).
Proof.
  unfold rerank_papers. intros H.
  assert (∃ scored,
    mapM (score_paper get_embedding (get_embedding query)) papers = Some scored
    ∧ out = slice_to top_k (sort_by_score scored)) as (scored & Hs & ->).
  { destruct papers as [|p papers'].
    - simplify_eq. exists []. split; [done|].
      unfold slice_to. simpl. by rewrite !take_nil, Tauto.if_same.
    - destruct (mapM _ _) as [scored|]; simplify_eq/=. eauto. }
  exists scored. split_and!; [done|done|].
  pose proof (length_mapM _ _ _ Hs) as Hlen.
  unfold slice_to, len.
  destruct (top_k <? 0)%Z eqn:Hk;
    rewrite length_take, sort_by_score_length; lia.
Qed.

(** Whenever [rerank_papers] returns, with numeric scores or not, it
    returns [min(top_k, n)] of the [n] papers for [top_k >= 0] and
    [max(n + top_k, 0)] of them for a negative [top_k], each one an
    input paper with its embedding and score assigned. *)
Theorem rerank_papers_length
    (query : string) (papers out : list Paper) (top_k : Z) :
  rerank_papers get_embedding query papers top_k = Some out →
  len out = (if (top_k <? 0)%Z then Z.max (len papers + top_k) 0
             else Z.min top_k (len papers))
  ∧ Forall (λ p', ∃ p e s, p ∈ papers
                           ∧ p' = set_relevance_score s (set_embedding e p)) out.
Proof.
  intros H.
  destruct (rerank_papers_len query papers out top_k H)
    as (scored & Hs & -> & Hlen).
  split; [done|].
  apply mapM_Some in Hs. pose proof (scored_from_inputs _ _ _ Hs) as Hall.
  assert (slice_to top_k (sort_by_score scored) ⊆+ scored) as Hsub.
  { trans (sort_by_score scored); [|by rewrite sort_by_score_perm].
    unfold slice_to. destruct (top_k <? 0)%Z; apply submseteq_take. }
  rewrite Forall_forall in Hall. apply Forall_forall.
  intros p' Hp'. apply Hall. by eapply elem_of_submseteq.
Qed.

End RerankLength.

Lemma cosine_similarity_zero_vector_example :
  _cosine_similarity (replicate 2 0%float) [3%float; 4%float] = Some 0%float
  ∧ _cosine_similarity [3%float; 4%float] (replicate 2 0%float) = Some 0%float.
Proof.
  apply (cosine_similarity_zero_vector 2 [3%float; 4%float]); by vm_compute.
Defined.

(** A negative [top_k]: the last of the three papers is dropped. *)
Lemma rerank_papers_length_example :
  len (default [] (rerank_papers ex_embedding "q" ex_ranked_input (-1)))
  = (if (-1 <? 0)%Z then Z.max (len ex_ranked_input + -1) 0
     else Z.min (-1) (len ex_ranked_input))
  ∧ Forall (λ p', ∃ p e s, p ∈ ex_ranked_input
                           ∧ p' = set_relevance_score s (set_embedding e p))
           (default [] (rerank_papers ex_embedding "q" ex_ranked_input (-1))).
Proof.
  apply (rerank_papers_length ex_embedding "q" ex_ranked_input
           (default [] (rerank_papers ex_embedding "q" ex_ranked_input (-1)))
           (-1)).
  by vm_compute.
Defined.


(* ===================================================================== *)
(** * The embedding provider *)
(* ===================================================================== *)

Section EmbeddingProviderFacts.
Import EmbeddingProvider.
Variable md5_hexdigest : string → string.
Variable py_hash : string → Z.
Variable embedding_model : option Model.

Local Abbreviation simple := (_simple_embedding py_hash).
Local Abbreviation get := (get_embedding md5_hexdigest py_hash embedding_model).

Lemma fill_length {A} (f : string → A) (vec : list A)
    (iws : list (nat * string)) :
  length (foldl (λ vec iw, <[iw.1 := f iw.2]> vec) vec iws) = length vec.
Proof.
  revert vec. induction iws as [|iw iws IH]; intros vec; simpl; [done|].
  by rewrite IH, length_insert.
Qed.

Lemma lower_char_isspace (c : Ascii.ascii) :
  Synthesizer.isspace (lower_char c) = Synthesizer.isspace c.
Proof. by destruct c as [[] [] [] [] [] [] [] []]; vm_compute. Qed.

Lemma split_chars_ws_blank (l : list Ascii.ascii) :
  Forall (λ c, Synthesizer.isspace c = true) l → split_chars_ws [] l = [].
Proof.
  induction 1 as [|c l Hc _ IH]; simpl; [done|]. by rewrite Hc, IH.
Qed.

(** [_simple_embedding] returns 384 numbers for every text and every
    hash function; for a text that is empty or blank they are all 0. *)
Theorem simple_embedding_shape (text : string) :
  length (simple text) = 384
  ∧ (Forall (λ c, Synthesizer.isspace c = true)
            (String.list_ascii_of_string text) →
     simple text = replicate 384 0%float).
Proof.
  split.
  - unfold _simple_embedding.
    destruct (_ <? _)%float;
      rewrite ?length_fmap, fill_length; apply length_replicate.
  - intros Hblank. unfold _simple_embedding, lower_words.
    rewrite split_chars_ws_blank.
    + by vm_compute.
    + apply Forall_fmap. eapply Forall_impl; [exact Hblank|].
      intros c Hc. simpl. by rewrite lower_char_isspace.
Qed.

(** What [get_embedding] does to the cache: nothing, or it adds the
    model's vector under the key of the text, which was absent.  The
    fallback vector is never stored. *)
Theorem get_embedding_cache_update
    (cache : gmap string (list float)) (text : string) :
  (get_embedding md5_hexdigest py_hash embedding_model cache text).1 = cache
  ∨ (cache !! md5_hexdigest text = None
     ∧ (∃ model, embedding_model = Some model
                 ∧ encode model (String.substring 0 1000 text)
                   = Some (get cache text).2)
     ∧ (get cache text).1 = <[md5_hexdigest text := (get cache text).2]> cache).
Proof.
  unfold get_embedding.
  destruct (cache !! md5_hexdigest text) as [e|] eqn:Hc; [by left|].
  destruct embedding_model as [model|]; [|by left].
  destruct (encode model _) as [e|] eqn:He; [|by left].
  right. simpl. eauto.
Qed.

(** A vector that was found in the cache or came from the model is
    returned again by every later call for the same text, whatever the
    model and the hash of words have become, and that call leaves the
    cache as it is. *)
Theorem get_embedding_memoized
    (py_hash' : string → Z) (embedding_model' : option Model)
    (cache : gmap string (list float)) (text : string) :
  is_Some (cache !! md5_hexdigest text)
  ∨ (∃ model, embedding_model = Some model
              ∧ is_Some (encode model (String.substring 0 1000 text))) →
  get_embedding md5_hexdigest py_hash' embedding_model'
                (get cache text).1 text
  = ((get cache text).1, (get cache text).2).
Proof.
  intros H. unfold get_embedding at 1.
  assert ((get cache text).1 !! md5_hexdigest text = Some (get cache text).2)
    as ->; [|done].
  unfold get_embedding.
  destruct (cache !! md5_hexdigest text) as [e|] eqn:Hc; [done|].
  destruct H as [[? [=]]|(model & -> & [e He])].
  rewrite He. simpl. by rewrite lookup_insert_eq.
Qed.
End EmbeddingProviderFacts.

Section EmbeddingProviderRefinement.
Import EmbeddingProvider.
Variable md5_hexdigest : string → string.
Variable py_hash : string → Z.
Variable model : Model.
Variable f : string → list float.

Local Abbreviation get := (get_embedding md5_hexdigest py_hash (Some model)).
Local Abbreviation each :=
  (get_embeddings_each md5_hexdigest py_hash (Some model)).
Local Abbreviation truncated := (String.substring 0 1000).

Hypothesis md5_inj : ∀ t1 t2, md5_hexdigest t1 = md5_hexdigest t2 → t1 = t2.
Hypothesis encode_total : ∀ t, encode model t = Some (f t).



End EmbeddingProviderRefinement.

Section EmbeddingProviderNoModel.
Import EmbeddingProvider.
Variable md5_hexdigest : string → string.
Variable py_hash : string → Z.

(** Without a model nothing is ever stored: [get_embeddings_batch]
    returns one vector of 384 numbers per text, and on an empty cache
    these are the fallback vectors of the texts, in order. *)
Theorem get_embeddings_batch_without_model
    (cache : gmap string (list float)) (texts : list string) :
  (get_embeddings_batch md5_hexdigest py_hash None cache texts).1 = cache
  ∧ length (get_embeddings_batch md5_hexdigest py_hash None cache texts).2
    = length texts
  ∧ (get_embeddings_batch md5_hexdigest py_hash None ∅ texts).2
    = (λ t, _simple_embedding py_hash (String.substring 0 1000 t)) <$> texts.
Proof.
  unfold get_embeddings_batch, get_embeddings_each.
  assert (∀ (c : gmap string (list float)) acc,
    let r := foldl (λ acc text,
                      let '(cache, embedding) :=
                        get_embedding md5_hexdigest py_hash None acc.1 text in
                      (cache, acc.2 ++ [embedding])) (c, acc) texts in
    r.1 = c ∧ length r.2 = length acc + length texts
    ∧ (c = ∅ → r.2 = acc ++ ((λ t, _simple_embedding py_hash
                                     (String.substring 0 1000 t)) <$> texts)))
    as Hfold.
  { induction texts as [|t texts IH]; intros c acc; simpl.
    - split_and!; [done|lia|]. intros _. by rewrite app_nil_r.
    - unfold get_embedding at 2 4 6.
      destruct (c !! md5_hexdigest t) as [e|] eqn:Hhit;
        simpl; destruct (IH c (acc ++ [e])) as (H1 & H2 & H3)
        || destruct (IH c (acc ++ [_simple_embedding py_hash
                                     (String.substring 0 1000 t)]))
             as (H1 & H2 & H3);
        (split_and!; [done|rewrite H2, length_app; simpl; lia|]);
        intros ->; [by rewrite lookup_empty in Hhit|].
      rewrite H3 by done. by rewrite <- app_assoc. }
  destruct (Hfold cache []) as (H1 & H2 & _).
  destruct (Hfold ∅ []) as (_ & _ & H3).
  split_and!; [done|done|]. by apply H3.
Qed.
End EmbeddingProviderNoModel.

Lemma simple_embedding_shape_example :
  length (EmbeddingProvider._simple_embedding ex_py_hash "  ") = 384
  ∧ (Forall (λ c, Synthesizer.isspace c = true)
            (String.list_ascii_of_string "  ") →
     EmbeddingProvider._simple_embedding ex_py_hash "  "
     = replicate 384 0%float).
Proof. apply (simple_embedding_shape ex_py_hash "  "). Defined.

Lemma get_embedding_memoized_example :
  EmbeddingProvider.get_embedding ex_hash ex_py_hash None
    (EmbeddingProvider.get_embedding ex_hash ex_py_hash (Some ex_model) ∅ "text").1
    "text"
  = ((EmbeddingProvider.get_embedding ex_hash ex_py_hash (Some ex_model) ∅ "text").1,
     (EmbeddingProvider.get_embedding ex_hash ex_py_hash (Some ex_model) ∅ "text").2).
Proof.
  apply (get_embedding_memoized ex_hash ex_py_hash (Some ex_model) ex_py_hash None
           ∅ "text").
  right. exists ex_model. split; [done|by eexists].
Defined.


(* ===================================================================== *)
(** * The synthesizer *)
(* ===================================================================== *)

Section StripFacts.
Import Synthesizer.
Implicit Types (l : list Ascii.ascii) (c : Ascii.ascii).

Lemma lstrip_chars_clean l : head_clean (lstrip_chars l).
Proof.
  induction l as [|c l IH]; simpl; [by intros ?|].
  destruct (isspace c) eqn:Hc; [done|]. intros c' [= <-]. done.
Qed.

Lemma lstrip_chars_id l : head_clean l → lstrip_chars l = l.
Proof.
  destruct l as [|c l]; [done|]. intros H. simpl.
  by rewrite (H c eq_refl).
Qed.

Lemma lstrip_chars_last l : lstrip_chars l ≠ [] → last (lstrip_chars l) = last l.
Proof.
  induction l as [|c l IH]; simpl; [done|].
  destruct (isspace c); [|done]. intros H. rewrite IH by done.
  destruct l; [done|done].
Qed.

Lemma lstrip_chars_subseteq l : lstrip_chars l ⊆ l.
Proof.
  induction l as [|c l IH]; simpl; [done|].
  destruct (isspace c); [|done]. set_solver.
Qed.

Lemma strip_chars_subseteq l : strip_chars l ⊆ l.
Proof.
  unfold strip_chars. intros c.
  rewrite elem_of_reverse. intros H%lstrip_chars_subseteq.
  rewrite elem_of_reverse in H. by apply lstrip_chars_subseteq.
Qed.

Lemma strip_chars_idemp l : strip_chars (strip_chars l) = strip_chars l.
Proof.
  unfold strip_chars.
  set (t := lstrip_chars l). set (u := lstrip_chars (reverse t)).
  assert (head_clean (reverse u)) as Hru.
  { intros c. rewrite head_reverse. intros Hlast.
    assert (u ≠ []) as Hu by (by intros Hnil; rewrite Hnil in Hlast).
    unfold u in Hlast. rewrite lstrip_chars_last in Hlast by done.
    rewrite last_reverse in Hlast. by apply (lstrip_chars_clean l). }
  rewrite (lstrip_chars_id (reverse u) Hru), reverse_involutive.
  by rewrite (lstrip_chars_id u (lstrip_chars_clean _)).
Qed.

Lemma strip_idemp (s : string) : strip (strip s) = strip s.
Proof.
  unfold strip.
  by rewrite String.list_ascii_of_string_of_list_ascii, strip_chars_idemp.
Qed.

Lemma split_chars_no_sep (sep : Ascii.ascii) l :
  Forall (λ w, sep ∉ w) (split_chars sep l).
Proof.
  induction l as [|c l IH]; simpl.
  - repeat constructor. by intros ?%elem_of_nil.
  - destruct (decide (c = sep)) as [->|Hne].
    + constructor; [by intros ?%elem_of_nil|done].
    + destruct (split_chars sep l) as [|w ws].
      * repeat constructor. by intros ?%list_elem_of_singleton.
      * apply Forall_cons in IH as [Hw Hws]. constructor; [|done].
        intros [?|?]%elem_of_cons; done.
Qed.
End StripFacts.

Section SynthesizerFacts.
Import Synthesizer.
Variable messages_create : Z → string → option string.

(** Whatever text the model returns, [generate_search_queries] returns
    at most three queries, each of them non-empty, without leading or
    trailing space and on one line; when the call raises, so does the
    method. *)
Theorem generate_search_queries_clean (user_question : string) :
  (∀ queries,
     generate_search_queries messages_create user_question = Some queries →
     length queries ≤ 3 ∧ Forall clean_query queries)
  ∧ (messages_create 500 (query_prompt user_question) = None →
     generate_search_queries messages_create user_question = None).
Proof.
  unfold generate_search_queries. split; [|by intros ->].
  intros queries H.
  destruct (messages_create 500 _) as [text|]; simplify_eq/=.
  split; [rewrite length_take; lia|].
  apply Forall_take, Forall_fmap, Forall_forall.
  intros q [Hq Hin]%list_elem_of_filter. simpl. unfold clean_query.
  split_and!.
  - intros Hnil. by rewrite Hnil in Hq.
  - apply strip_idemp.
  - unfold strip. rewrite String.list_ascii_of_string_of_list_ascii.
    intros Hnl%strip_chars_subseteq.
    unfold split_lines in Hin. apply list_elem_of_fmap in Hin as (w & -> & Hw).
    rewrite String.list_ascii_of_string_of_list_ascii in Hnl.
    pose proof (split_chars_no_sep newline
                  (String.list_ascii_of_string (strip text))) as Hall.
    rewrite Forall_forall in Hall. by apply (Hall w).
Qed.

Lemma imap_summary_ext (papers papers' : list Paper) (k : nat) :
  Forall2 same_summary papers papers' →
  imap (λ i paper, paper_summary (S (k + i)) paper) papers
  = imap (λ i paper, paper_summary (S (k + i)) paper) papers'.
Proof.
  intros H. revert k. induction H as [|p p' l l' (Hy & Hc & Ha) _ IH];
    intros k; simpl; [done|]. f_equal.
  - unfold paper_summary. by rewrite Hy, Hc, Ha.
  - trans (imap (λ i paper, paper_summary (S (S k + i)) paper) l).
    { apply imap_ext. intros; simpl; f_equal; lia. }
    rewrite IH. apply imap_ext. intros; simpl; f_equal; lia.
Qed.

(** With fewer than two papers [detect_contradictions] returns its
    fixed text without calling the model.  Otherwise the call depends
    on the first six papers only, and of each on the year, the citation
    count and the first 600 characters of the abstract. *)
Theorem detect_contradictions_reads_six (papers papers' : list Paper) :
  (length papers < 2 →
   ∀ other_model,
     detect_contradictions other_model papers = Some not_enough_papers)
  ∧ (Forall2 same_summary (take 6 papers) (take 6 papers') →
     detect_contradictions messages_create papers
     = detect_contradictions messages_create papers').
Proof.
  unfold detect_contradictions. split.
  - intros H other. by rewrite (proj2 (Nat.ltb_lt _ _) H).
  - intros H. pose proof (Forall2_length _ _ _ H) as Hlen.
    rewrite !length_take in Hlen.
    assert ((length papers <? 2) = (length papers' <? 2)) as ->.
    { destruct (Nat.ltb_spec (length papers) 2),
               (Nat.ltb_spec (length papers') 2); try done; lia. }
    destruct (_ <? _); [done|].
    f_equal. f_equal. exact (imap_summary_ext _ _ 0 H).
Qed.
End SynthesizerFacts.

(* ===================================================================== *)
(** * Further properties of the retrieval loop *)
(* ===================================================================== *)

Section RetrievalLoop.
Variable md5_hexdigest : string → string.
Variable s2_get : string → Z → string → HttpOutcome.

Local Abbreviation step := (retrieve_query md5_hexdigest s2_get).
Local Abbreviation search q ppq := (search_papers s2_get q ppq "2020-").

Lemma search_papers_abstracts (q : string) (ppq : Z) (p : Paper) :
  p ∈ search q ppq → 100 < String.length (abstract p) ∧ embedding p = None.
Proof.
  unfold search_papers. destruct (s2_get _ _ _) as [|status data];
    [by intros ?%elem_of_nil|].
  destruct (negb _); [by intros ?%elem_of_nil|].
  intros (item & -> & [Hitem _]%list_elem_of_filter)%list_elem_of_fmap.
  split; [by apply has_abstract_length|done].
Qed.

(** When the cache is not read, the step is the fresh path. *)
Lemma retrieve_query_fresh (use_cached : bool) (ppq : Z) (st : Merged)
    (cache : option ResultCache) (query : string) :
  cache_not_read use_cached cache →
  (step use_cached ppq (st, cache) query).1
  = (foldl merge_fresh_paper (st, []) (search query ppq)).1
  ∧ cache_not_read use_cached (step use_cached ppq (st, cache) query).2.
Proof.
  intros Hnr. unfold retrieve_query.
  assert (match use_cached, cache with
          | true, Some c => get_cached_papers md5_hexdigest c query
          | _, _ => None
          end = None) as -> by (destruct Hnr as [-> | ->]; [done|by destruct use_cached]).
  destruct (foldl merge_fresh_paper _ _) as [st' new_papers]. simpl.
  split; [done|]. destruct Hnr as [-> | ->]; [by left|by right].
Qed.

Lemma merge_fresh_paper_titles (acc : Merged * list Paper) (p : Paper) :
  NoDup (idless_titles acc.1) → NoDup (idless_titles (merge_fresh_paper acc p).1).
Proof.
  destruct acc as [[all seen] new_papers]. unfold merge_fresh_paper. simpl.
  intros H. destruct (truthy (paper_id p)) eqn:Hid; simpl.
  - case_bool_decide; simpl; [|done].
    unfold idless_titles. simpl. rewrite filter_app, filter_cons, Hid.
    rewrite decide_False by done. by rewrite filter_nil, app_nil_r.
  - case_bool_decide as Htitle; simpl; [|done].
    unfold idless_titles in *. simpl in *.
    rewrite filter_app, filter_cons, Hid. rewrite decide_True by done.
    rewrite filter_nil, fmap_app. apply NoDup_app. split_and!; [done| |].
    + intros t Ht ->%list_elem_of_singleton. apply Htitle.
      apply list_elem_of_fmap in Ht as (p' & -> & [_ Hp']%list_elem_of_filter).
      by apply list_elem_of_fmap_2.
    + apply NoDup_singleton.
Qed.

Lemma merge_fresh_paper_from (papers : list Paper) (P : Paper → Prop)
    (acc : Merged * list Paper) (p : Paper) :
  Forall P (all_papers acc.1) → P p →
  Forall P (all_papers (merge_fresh_paper acc p).1).
Proof.
  destruct acc as [[all seen] new_papers]. unfold merge_fresh_paper. simpl.
  intros Hall Hp.
  destruct (_ && _); [|destruct (_ && _)]; simpl; try done;
    apply Forall_app; by repeat constructor.
Qed.

Lemma merge_fresh_papers_from (papers : list Paper) (P : Paper → Prop)
    (acc : Merged * list Paper) :
  Forall P (all_papers acc.1) → Forall P papers →
  Forall P (all_papers (foldl merge_fresh_paper acc papers).1).
Proof.
  revert acc. induction papers as [|p papers IH]; intros acc Hall Hps;
    simpl; [done|].
  apply Forall_cons in Hps as [Hp Hps].
  apply IH; [|done]. by apply (merge_fresh_paper_from papers).
Qed.

(** In a run that does not read the cache, no two merged papers
    without [paper_id] have the same title. *)
Theorem retrieve_fresh_titles_unique (use_cached : bool) (ppq : Z)
    (cache : option ResultCache) (queries : list string) :
  cache_not_read use_cached cache →
  NoDup (idless_titles (retrieve md5_hexdigest s2_get use_cached ppq cache queries).1).
Proof.
  intros Hnr. unfold retrieve.
  apply (foldl_invariant
           (λ acc : Merged * option ResultCache,
              NoDup (idless_titles acc.1) ∧ cache_not_read use_cached acc.2)
           (step use_cached ppq) queries).
  - intros [st c] q [Hnd Hc].
    destruct (retrieve_query_fresh use_cached ppq st c q Hc) as [-> Hc'].
    split; [|done].
    apply (foldl_invariant (λ acc : Merged * list Paper,
                              NoDup (idless_titles acc.1))); [|done].
    apply merge_fresh_paper_titles.
  - split; [constructor|done].
Qed.

(** In a run that does not read the cache, every merged paper was
    returned by the search for one of the queries, has an abstract of
    more than 100 characters, and carries no embedding yet. *)
Theorem retrieve_fresh_papers_from_search (use_cached : bool) (ppq : Z)
    (cache : option ResultCache) (queries : list string) :
  cache_not_read use_cached cache →
  Forall (λ p, (∃ q, q ∈ queries ∧ p ∈ search q ppq)
               ∧ 100 < String.length (abstract p) ∧ embedding p = None)
         (all_papers (retrieve md5_hexdigest s2_get use_cached ppq cache queries).1).
Proof.
  intros Hnr. unfold retrieve.
  assert (∀ (qs : list string) (acc : Merged * option ResultCache)
            (P : Paper → Prop),
    (∀ q p, q ∈ qs → p ∈ search q ppq → P p) →
    cache_not_read use_cached acc.2 → Forall P (all_papers acc.1) →
    Forall P (all_papers (foldl (step use_cached ppq) acc qs).1)) as Hfold.
  { induction qs as [|q qs IH]; intros [st c] P HP Hc Hall; [done|].
    cbn [foldl].
    destruct (retrieve_query_fresh use_cached ppq st c q Hc) as [Hst Hc'].
    apply IH; [intros; apply (HP q0); [by right|done]|done|].
    rewrite Hst. apply (merge_fresh_papers_from (search q ppq)); [done|].
    apply Forall_forall. intros p Hp. apply (HP q); [by left|done]. }
  apply Hfold; [|done|done].
  intros q p Hq Hp. split; [by eauto|by eapply search_papers_abstracts].
Qed.

End RetrievalLoop.

Lemma merge_cached_paper_cases (st : Merged) (d : PaperDict) :
  ((d_paper_id d ∉ seen_paper_ids st)
   ∧ merge_cached_paper st d
     = mkMerged (all_papers st ++ [paper_of_dict d])
                (seen_paper_ids st ∪ {[d_paper_id d]}))
  ∨ ((d_paper_id d ∈ seen_paper_ids st) ∧ merge_cached_paper st d = st).
Proof.
  unfold merge_cached_paper. case_bool_decide as Hd; [by left|by right].
Qed.

Lemma merge_cached_papers_added (ds : list PaperDict) (st : Merged) :
  ∃ added,
    all_papers (foldl merge_cached_paper st ds) = all_papers st ++ added
    ∧ added `sublist_of` (paper_of_dict <$> ds)
    ∧ seen_paper_ids st ⊆ seen_paper_ids (foldl merge_cached_paper st ds)
    ∧ Forall (λ d, d_paper_id d ∈ seen_paper_ids (foldl merge_cached_paper st ds)) ds.
Proof.
  revert st. induction ds as [|d ds IH]; intros st.
  - exists []. by rewrite app_nil_r.
  - cbn [foldl].
    destruct (IH (merge_cached_paper st d)) as (added & Hall & Hsub & Hseen & Hids).
    destruct (merge_cached_paper_cases st d) as [[Hd Hst]|[Hd Hst]];
      rewrite Hst in *; simpl in *.
    + exists (paper_of_dict d :: added). rewrite Hall, <- app_assoc.
      split_and!; [done|by apply sublist_skip|set_solver|].
      constructor; [set_solver|done].
    + exists added. split_and!; [done|by apply sublist_cons|done|].
      constructor; [set_solver|done].
Qed.

Section CacheHit.
Variable md5_hexdigest : string → string.

(** On a cache hit the search API is not called and nothing is
    written: for every search API the step returns the cache as it was,
    and appends to the merged list, in cached order, papers rebuilt
    from the entry; every id of the entry is in [seen_paper_ids]
    afterwards. *)
Theorem retrieve_query_cache_hit (ppq : Z) (st : Merged) (c : ResultCache)
    (query : string) (d : PaperDict) (ds : list PaperDict) :
  get_cached_papers md5_hexdigest c query = Some (d :: ds) →
  ∃ st' added,
    (∀ other_s2_get,
       retrieve_query md5_hexdigest other_s2_get true ppq (st, Some c) query
       = (st', Some c))
    ∧ all_papers st' = all_papers st ++ added
    ∧ added `sublist_of` (paper_of_dict <$> d :: ds)
    ∧ Forall (λ d', d_paper_id d' ∈ seen_paper_ids st') (d :: ds).
Proof.
  intros Hhit.
  destruct (merge_cached_papers_added (d :: ds) st)
    as (added & Hall & Hsub & _ & Hids).
  exists (foldl merge_cached_paper st (d :: ds)), added.
  split_and!; [|done..].
  intros other. unfold retrieve_query. by rewrite Hhit.
Qed.
End CacheHit.

Section RetrievalCache.
Variable md5_hexdigest : string → string.
Variable s2_get : string → Z → string → HttpOutcome.

Local Abbreviation step := (retrieve_query md5_hexdigest s2_get).

Lemma retrieve_query_cache_cases (use_cached : bool) (ppq : Z) (st : Merged)
    (c : ResultCache) (query : string) :
  (step use_cached ppq (st, Some c) query).2 = Some c
  ∨ (∃ new_papers,
       new_papers ≠ []
       ∧ (use_cached = true →
          get_cached_papers md5_hexdigest c query = None
          ∨ get_cached_papers md5_hexdigest c query = Some [])
       ∧ (step use_cached ppq (st, Some c) query).2
         = Some (cache_papers md5_hexdigest c query new_papers)).
Proof.
  unfold retrieve_query.
  destruct use_cached; [destruct (get_cached_papers _ _ _) as [[|d ds]|]|];
    try (by left);
    destruct (foldl merge_fresh_paper _ _) as [st' [|p new_papers]]; simpl;
    try (by left); right; exists (p :: new_papers); split_and!; auto; done.
Qed.

(** What the retrieval loop does to an existing cache: [answers/] is
    untouched; in [papers/] only the keys of the queries of this run can
    change; every file that is new or replaced belongs to one of these
    queries and holds at least one paper; and with [use_cached] set, a
    file that holds at least one paper is never replaced. *)
Theorem retrieve_papers_dir_frame (use_cached : bool) (ppq : Z)
    (c : ResultCache) (queries : list string) :
  ∃ c',
    (retrieve md5_hexdigest s2_get use_cached ppq (Some c) queries).2 = Some c'
    ∧ answers_dir c' = answers_dir c
    ∧ (∀ key, key ∉ md5_hexdigest <$> queries →
         papers_dir c' !! key = papers_dir c !! key)
    ∧ (∀ key file, papers_dir c' !! key = Some file →
         papers_dir c !! key = Some file
         ∨ (pf_papers file ≠ []
            ∧ pf_query file ∈ queries
            ∧ key = md5_hexdigest (pf_query file)))
    ∧ (use_cached = true → ∀ key file,
         papers_dir c !! key = Some file → pf_papers file ≠ [] →
         papers_dir c' !! key = Some file).
Proof.
  unfold retrieve. generalize (mkMerged [] ∅). revert c.
  induction queries as [|q qs IH]; intros c st.
  - exists c. split_and!; auto.
  - cbn [foldl].
    destruct (step use_cached ppq (st, Some c) q) as [st1 c1] eqn:Hstep.
    assert (c1 = Some c ∨ ∃ new_papers, new_papers ≠ []
              ∧ (use_cached = true →
                 get_cached_papers md5_hexdigest c q = None
                 ∨ get_cached_papers md5_hexdigest c q = Some [])
              ∧ c1 = Some (cache_papers md5_hexdigest c q new_papers)) as Hc1.
    { pose proof (retrieve_query_cache_cases use_cached ppq st c q) as H.
      by rewrite Hstep in H. }
    destruct Hc1 as [-> | (new_papers & Hnew & Hmiss & ->)].
    + destruct (IH c st1) as (c' & -> & Ha & Hframe & Hfiles & Hkeep).
      exists c'. split_and!; [done|done| | |done].
      * intros key Hkey. apply Hframe. set_solver.
      * intros key file Hf. destruct (Hfiles key file Hf) as [?|(?&?&?)];
          [by left|right]. split_and!; [done|by right|done].
    + destruct (IH (cache_papers md5_hexdigest c q new_papers) st1)
        as (c' & -> & Ha & Hframe & Hfiles & Hkeep).
      exists c'. split_and!; [done|done| | |].
      * intros key Hkey. rewrite Hframe by set_solver.
        unfold cache_papers, _get_cache_key. simpl.
        apply lookup_insert_ne. set_solver.
      * intros key file Hf.
        destruct (Hfiles key file Hf) as [Hold|(?&?&?)];
          [|right; split_and!; [done|by right|done]].
        unfold cache_papers, _get_cache_key in Hold. simpl in Hold.
        destruct (decide (md5_hexdigest q = key)) as [<-|Hne].
        -- rewrite lookup_insert_eq in Hold. simplify_eq. right. simpl.
           split_and!; [|by left|done]. by destruct new_papers.
        -- rewrite lookup_insert_ne in Hold by done. by left.
      * intros Huc key file Hf Hfile. apply (Hkeep Huc); [|done].
        unfold cache_papers, _get_cache_key. simpl.
        rewrite lookup_insert_ne; [done|]. intros <-.
        unfold get_cached_papers, _get_cache_key in Hmiss.
        rewrite Hf in Hmiss. destruct (Hmiss Huc) as [?|[=]]; [done|].
        congruence.
Qed.

Lemma retrieve_uncached_independent (ppq : Z) (queries : list string)
    (st : Merged) (c1 c2 : option ResultCache) :
  (foldl (step false ppq) (st, c1) queries).1
  = (foldl (step false ppq) (st, c2) queries).1.
Proof.
  revert st c1 c2. induction queries as [|q qs IH]; intros st c1 c2; [done|].
  cbn [foldl].
  destruct (retrieve_query_fresh md5_hexdigest s2_get false ppq st c1 q)
    as [H1 _]; [by left|].
  destruct (retrieve_query_fresh md5_hexdigest s2_get false ppq st c2 q)
    as [H2 _]; [by left|].
  destruct (step false ppq (st, c1) q) as [st1 c1'].
  destruct (step false ppq (st, c2) q) as [st2 c2'].
  simpl in *. rewrite H1, <- H2. apply IH.
Qed.

Lemma retrieve_query_without_cache (use_cached : bool) (ppq : Z)
    (st : Merged) (query : string) :
  step use_cached ppq (st, None) query
  = ((foldl merge_fresh_paper (st, [])
        (search_papers s2_get query ppq "2020-")).1, None).
Proof.
  unfold retrieve_query.
  by destruct use_cached; destruct (foldl merge_fresh_paper _ _).
Qed.

Lemma retrieve_without_cache (use_cached : bool) (ppq : Z)
    (queries : list string) (st : Merged) :
  (foldl (step use_cached ppq) (st, None) queries).2 = None
  ∧ (foldl (step use_cached ppq) (st, None) queries).1
    = (foldl (step false ppq) (st, None) queries).1.
Proof.
  revert st. induction queries as [|q qs IH]; intros st; [done|].
  cbn [foldl]. rewrite !retrieve_query_without_cache. apply IH.
Qed.
End RetrievalCache.

(* ===================================================================== *)
(** * Further properties of [answer_question] *)
(* ===================================================================== *)

Section AnswerStage.
Variable md5_hexdigest : string → string.
Variable s2_get : string → Z → string → HttpOutcome.
Variable get_embedding : string → list float.
Variable generate_search_queries : string → option (list string).
Variable detect_contradictions : list Paper → option string.
Variable synthesize_findings :
  string → list Paper → option string → option string.

Local Abbreviation retrieve' := (retrieve md5_hexdigest s2_get).
Local Abbreviation answer_question' :=
  (answer_question md5_hexdigest s2_get get_embedding
     generate_search_queries detect_contradictions synthesize_findings).
Local Abbreviation ids_of top_papers :=
  (filter (λ i, truthy i = true) (paper_id <$> top_papers)).

(** With [use_cached] false the returned dictionary does not depend on
    what the cache holds, nor on whether there is a cache, and it never
    has [from_cache] true. *)
Theorem answer_question_use_cached_false
    (cache : option ResultCache) (q : string) (ppq : Z) (detect : bool)
    (top_k : Z) :
  (answer_question' cache q ppq detect top_k false).2
  = (answer_question' None q ppq detect top_k false).2
  ∧ (∀ r, (answer_question' cache q ppq detect top_k false).2 = Some r →
          r !! "from_cache" ≠ Some (VBool true)).
Proof.
  assert (∀ c,
    (answer_question' c q ppq detect top_k false).2
    = match generate_search_queries q with
      | None => None
      | Some queries =>
          let all := all_papers (retrieve' false ppq None queries).1 in
          match all with
          | [] => Some (empty_result q queries)
          | _ =>
              top ← rerank_papers get_embedding q all top_k;
              contradictions ←
                (if detect && (2 <=? len top)%Z
                 then Some <$> detect_contradictions top else Some None);
              answer ← synthesize_findings q top contradictions;
              Some (full_result q queries all top contradictions answer false)
          end
      end) as Hshape.
  { intros c. unfold answer_question.
    destruct (generate_search_queries q) as [queries|]; [|done].
    pose proof (retrieve_uncached_independent md5_hexdigest s2_get ppq queries
                  (mkMerged [] ∅) c None) as Hind.
    fold (retrieve' false ppq c queries) in Hind.
    fold (retrieve' false ppq None queries) in Hind.
    destruct (retrieve' false ppq c queries) as [st c1]. simpl in Hind.
    rewrite <- Hind. simpl.
    destruct (all_papers st) as [|p all]; [done|].
    destruct (rerank_papers _ _ _ _) as [top|]; [|done]. simpl.
    destruct (detect && _); simpl;
      [destruct (detect_contradictions top); simpl; [|done]|];
      by destruct (synthesize_findings _ _ _). }
  split; [by rewrite !Hshape|].
  intros r. rewrite Hshape.
  destruct (generate_search_queries q) as [queries|]; [|done]. simpl.
  destruct (all_papers _) as [|p all]; [by intros [= <-]|].
  destruct (rerank_papers _ _ _ _) as [top|]; [|done]. simpl.
  destruct (if detect && _ then _ else _) as [c|]; [|done]. simpl.
  destruct (synthesize_findings _ _ _); [|done]. by intros [= <-].
Qed.

(** Without a cache object the method leaves none behind, and
    [use_cached] makes no difference to what it returns. *)
Theorem answer_question_without_cache
    (q : string) (ppq : Z) (detect : bool) (top_k : Z) (use_cached : bool) :
  (answer_question md5_hexdigest s2_get get_embedding generate_search_queries
     detect_contradictions synthesize_findings
     None q ppq detect top_k use_cached).1 = None
  ∧ (answer_question' None q ppq detect top_k use_cached).2
    = (answer_question' None q ppq detect top_k false).2.
Proof.
  unfold answer_question.
  destruct (generate_search_queries q) as [queries|]; [|done].
  destruct (retrieve_without_cache md5_hexdigest s2_get use_cached ppq queries
              (mkMerged [] ∅)) as [Hnone Hsame].
  fold (retrieve' use_cached ppq None queries) in Hnone, Hsame.
  fold (retrieve' false ppq None queries) in Hsame.
  destruct (retrieve_without_cache md5_hexdigest s2_get false ppq queries
              (mkMerged [] ∅)) as [Hnone' _].
  fold (retrieve' false ppq None queries) in Hnone'.
  destruct (retrieve' use_cached ppq None queries) as [st c1].
  destruct (retrieve' false ppq None queries) as [st' c1'].
  simpl in *. subst c1 c1' st'.
  destruct (all_papers st) as [|p all]; [done|].
  destruct (rerank_papers _ _ _ _) as [top|]; [|done].
  assert (match use_cached, @None ResultCache, ids_of top with
          | true, Some c0, _ :: _ =>
              get_cached_answer md5_hexdigest c0 q (ids_of top)
          | _, _, _ => None
          end = None) as -> by by destruct use_cached.
  destruct (detect && _); simpl;
    [destruct (detect_contradictions top); simpl; [|done]|];
    by destruct (synthesize_findings _ _ _).
Qed.

(** A hit in the answer cache ends the run without any further call to
    the language model: whatever [detect_contradictions] and
    [synthesize_findings] would do, the method returns the cached text
    with [from_cache] true and no contradiction analysis, and leaves the
    cache as the retrieval loop left it. *)
Theorem answer_question_cached_answer
    (cache : option ResultCache) (c1 : ResultCache) (q : string) (ppq : Z)
    (detect : bool) (top_k : Z) (queries : list string) (st : Merged)
    (top_papers : list Paper) (cached_answer : string) :
  generate_search_queries q = Some queries →
  retrieve' true ppq cache queries = (st, Some c1) →
  all_papers st ≠ [] →
  rerank_papers get_embedding q (all_papers st) top_k = Some top_papers →
  ids_of top_papers ≠ [] →
  get_cached_answer md5_hexdigest c1 q (ids_of top_papers) = Some cached_answer →
  cached_answer ≠ "" →
  ∀ other_detect other_synthesize,
    answer_question md5_hexdigest s2_get get_embedding generate_search_queries
      other_detect other_synthesize cache q ppq detect top_k true
    = (Some c1,
       Some (full_result q queries (all_papers st) top_papers None
                         cached_answer true)).
Proof.
  intros Hgen Hretr Hsome Hrank Hids Hhit Hne other_detect other_synthesize.
  unfold answer_question. rewrite Hgen, Hretr.
  destruct (all_papers st) as [|p all]; [done|]. rewrite Hrank.
  destruct (ids_of top_papers) as [|i ids] eqn:Hi; [done|].
  rewrite Hhit. by destruct cached_answer.
Qed.

(** A run with a cache that synthesizes an answer for top papers with
    at least one id stores it: the cache it leaves returns that answer
    for the question and these ids in any order, and its [papers/] is
    what the retrieval loop left. *)
Theorem answer_question_stores_answer
    (cache : option ResultCache) (c1 : ResultCache) (q : string) (ppq : Z)
    (detect : bool) (top_k : Z) (use_cached : bool) (queries : list string)
    (st : Merged) (top_papers : list Paper) (r : gmap string Value) :
  generate_search_queries q = Some queries →
  retrieve' use_cached ppq cache queries = (st, Some c1) →
  rerank_papers get_embedding q (all_papers st) top_k = Some top_papers →
  ids_of top_papers ≠ [] →
  (answer_question' cache q ppq detect top_k use_cached).2 = Some r →
  r !! "from_cache" = Some (VBool false) →
  ∃ c2 answer,
    (answer_question' cache q ppq detect top_k use_cached).1 = Some c2
    ∧ r !! "answer" = Some (VStr answer)
    ∧ papers_dir c2 = papers_dir c1
    ∧ ∀ ids, ids ≡ₚ ids_of top_papers →
        get_cached_answer md5_hexdigest c2 q ids = Some answer.
Proof.
  intros Hgen Hretr Hrank Hids. unfold answer_question.
  rewrite Hgen, Hretr.
  destruct (all_papers st) as [|p all]; [by intros [= <-]|]. rewrite Hrank.
  destruct (ids_of top_papers) as [|i ids0] eqn:Hi; [done|].
  assert (∀ contradictions,
    match synthesize_findings q top_papers contradictions with
    | None => (Some c1, None)
    | Some answer =>
        (Some (cache_answer md5_hexdigest c1 q (i :: ids0) answer),
         Some (full_result q queries (p :: all) top_papers contradictions
                           answer false))
    end.2 = Some r →
    ∃ c2 answer,
      match synthesize_findings q top_papers contradictions with
      | None => (Some c1, None)
      | Some answer =>
          (Some (cache_answer md5_hexdigest c1 q (i :: ids0) answer),
           Some (full_result q queries (p :: all) top_papers contradictions
                             answer false))
      end.1 = Some c2
      ∧ r !! "answer" = Some (VStr answer)
      ∧ papers_dir c2 = papers_dir c1
      ∧ ∀ ids, ids ≡ₚ i :: ids0 →
          get_cached_answer md5_hexdigest c2 q ids = Some answer) as Hsynth.
  { intros contradictions.
    destruct (synthesize_findings q top_papers contradictions) as [answer|];
      [|done].
    intros [= <-]. eexists _, answer. split_and!; [done|by vm_compute|done|].
    intros ids Hperm. unfold get_cached_answer, cache_answer, _get_cache_key.
    simpl. unfold answer_cache_input.
    rewrite (sorted_permutation _ _ Hperm). by rewrite lookup_insert_eq. }
  destruct (match use_cached with true => _ | false => _ end)
    as [[|ch ct]|] eqn:Hcached;
    try (intros [= <-] Hfc; by vm_compute in Hfc);
    (destruct (detect && _); simpl;
     [destruct (detect_contradictions top_papers); simpl; [|done]|]);
    intros Hr _; by apply Hsynth.
Qed.

(** In every dictionary the method returns, for [top_k >= 0],
    [papers_used] is [min(top_k, papers_analyzed)] and is the number of
    papers listed under [papers]. *)
Theorem answer_question_counts
    (cache : option ResultCache) (q : string) (ppq : Z) (detect : bool)
    (top_k : Z) (use_cached : bool) (r : gmap string Value) :
  (0 ≤ top_k)%Z →
  (answer_question' cache q ppq detect top_k use_cached).2 = Some r →
  ∃ analyzed used papers,
    r !! "papers_analyzed" = Some (VInt analyzed)
    ∧ r !! "papers_used" = Some (VInt used)
    ∧ r !! "papers" = Some (VPapers papers)
    ∧ used = Z.min top_k analyzed
    ∧ len papers = used.
Proof.
  intros Hk. unfold answer_question.
  destruct (generate_search_queries q) as [queries|]; [|done].
  destruct (retrieve' _ _ _ _) as [st c1].
  destruct (all_papers st) as [|p all] eqn:Hall.
  { intros [= <-]. exists 0%Z, 0%Z, []. split_and!; try by vm_compute. lia. }
  destruct (rerank_papers _ _ _ _) as [top|] eqn:Hrank; [|done].
  destruct (rerank_papers_len get_embedding q (p :: all) top top_k Hrank)
    as (_ & _ & _ & Hlen).
  rewrite (proj2 (Z.ltb_ge top_k 0) Hk) in Hlen.
  assert (∀ c a b, ∃ analyzed used papers,
    full_result q queries (p :: all) top c a b !! "papers_analyzed"
      = Some (VInt analyzed)
    ∧ full_result q queries (p :: all) top c a b !! "papers_used"
      = Some (VInt used)
    ∧ full_result q queries (p :: all) top c a b !! "papers"
      = Some (VPapers papers)
    ∧ used = Z.min top_k analyzed ∧ len papers = used) as Hfull.
  { intros c a b. exists (len (p :: all)), (len top), top.
    split_and!; [by vm_compute..|exact Hlen|done]. }
  destruct (match use_cached with true => _ | false => _ end) as [[|ch ct]|];
    try (intros [= <-]; by apply Hfull);
    (destruct (detect && _); simpl;
     [destruct (detect_contradictions top); simpl; [|done]|]);
    (destruct (synthesize_findings _ _ _); [|done]);
    intros [= <-]; apply Hfull.
Qed.
End AnswerStage.

(* ===================================================================== *)
(** * The further properties at concrete inputs *)
(* ===================================================================== *)

Lemma retrieve_fresh_titles_unique_example :
  NoDup (idless_titles (retrieve ex_hash ex_s2_no_ids true 15 None ["q"; "q"]).1).
Proof.
  apply (retrieve_fresh_titles_unique ex_hash ex_s2_no_ids true 15 None).
  by right.
Defined.

Lemma retrieve_fresh_papers_from_search_example :
  Forall (λ p, (∃ q, q ∈ ["q1"; "q2"]
                     ∧ p ∈ search_papers ex_s2_overlap q 15 "2020-")
               ∧ 100 < String.length (abstract p) ∧ embedding p = None)
         (all_papers (retrieve ex_hash ex_s2_overlap false 15 (Some new_cache)
                               ["q1"; "q2"]).1).
Proof.
  apply (retrieve_fresh_papers_from_search ex_hash ex_s2_overlap false 15
           (Some new_cache)).
  by left.
Defined.

(** The second query of a rerun, served from the entry that holds the
    paper ["b"]. *)
Lemma retrieve_query_cache_hit_example :
  ∃ st' added,
    (∀ other_s2_get,
       retrieve_query ex_hash other_s2_get true 15
         (mkMerged [] ∅, Some (default new_cache ex_overlap_run.2)) "q2"
       = (st', Some (default new_cache ex_overlap_run.2)))
    ∧ all_papers st' = all_papers (mkMerged [] ∅) ++ added
    ∧ added `sublist_of`
        (paper_of_dict <$> paper_dict_of (ex_paper (Some "b") "Second" 2022 20) :: [])
    ∧ Forall (λ d', d_paper_id d' ∈ seen_paper_ids st')
             (paper_dict_of (ex_paper (Some "b") "Second" 2022 20) :: []).
Proof.
  apply (retrieve_query_cache_hit ex_hash 15 (mkMerged [] ∅)
           (default new_cache ex_overlap_run.2) "q2").
  by vm_compute.
Defined.

(** The rerun finds the answer of the first run. *)
Lemma answer_question_cached_answer_example :
  answer_question ex_hash ex_s2_overlap ex_embedding ex_two_queries
    (λ _, None) (λ _ _ _, None) ex_answer_run.1 "Q" 15 true 8 true
  = (Some (default new_cache ex_rerun_retrieval.2),
     Some (full_result "Q" ["q1"; "q2"] (all_papers ex_rerun_retrieval.1)
                       ex_rerun_top None "Synthesized answer [1]." true)).
Proof.
  apply (answer_question_cached_answer ex_hash ex_s2_overlap ex_embedding
           ex_two_queries ex_answer_run.1 (default new_cache ex_rerun_retrieval.2)
           "Q" 15 true 8 ["q1"; "q2"] ex_rerun_retrieval.1 ex_rerun_top
           "Synthesized answer [1].");
    by vm_compute.
Defined.

Lemma answer_question_stores_answer_example :
  ∃ c2 answer,
    ex_answer_run.1 = Some c2
    ∧ default ∅ ex_answer_run.2 !! "answer" = Some (VStr answer)
    ∧ papers_dir c2 = papers_dir (default new_cache ex_overlap_run.2)
    ∧ ∀ ids, ids ≡ₚ filter (λ i, truthy i = true) (paper_id <$> ex_overlap_top) →
        get_cached_answer ex_hash c2 "Q" ids = Some answer.
Proof.
  apply (answer_question_stores_answer ex_hash ex_s2_overlap ex_embedding
           ex_two_queries ex_detect ex_synthesize (Some new_cache)
           (default new_cache ex_overlap_run.2) "Q" 15 true 8 true
           ["q1"; "q2"] ex_overlap_run.1 ex_overlap_top
           (default ∅ ex_answer_run.2));
    by vm_compute.
Defined.

Lemma answer_question_counts_example :
  ∃ analyzed used papers,
    default ∅ ex_answer_run.2 !! "papers_analyzed" = Some (VInt analyzed)
    ∧ default ∅ ex_answer_run.2 !! "papers_used" = Some (VInt used)
    ∧ default ∅ ex_answer_run.2 !! "papers" = Some (VPapers papers)
    ∧ used = Z.min 8 analyzed
    ∧ len papers = used.
Proof.
  apply (answer_question_counts ex_hash ex_s2_overlap ex_embedding
           ex_two_queries ex_detect ex_synthesize (Some new_cache) "Q" 15 true
           8 true (default ∅ ex_answer_run.2)); [lia|by vm_compute].
Defined.
